(** * Cafeteria: the Menu / Submenu / Dish service over its CRUD repositories

    A shallow embedding of [cafeteria/internal]: the mapped classes of
    [models.py], the generic repository of [bases.py], its three
    specialisations of [repositories.py] and the orchestration service of
    [services.py], followed by the properties of the service. *)

From Stdlib Require Import String List ZArith NArith Bool Arith Lia.
Import ListNotations.

Set Implicit Arguments.

(** ** Data: identifiers, columns, tables *)

(** [uuid.UUID]: a 128-bit number; only equality of identifiers is used. *)
Definition UUID := N.

(** [Numeric(precision=12, scale=2)]: a price as a number of hundredths. *)
Definition Decimal := Z.

(** An [AsyncSession], named by the order in which the session factory made it. *)
Definition Session := nat.

(** The columns of [dishes], [submenus] and [menus] other than the key [id]. *)
Record DishColumns := {
  dish_title : string;
  dish_description : string;
  dish_price : Decimal;
  dish_submenu_id : UUID }.

Record SubmenuColumns := {
  submenu_title : string;
  submenu_description : string;
  submenu_menu_id : UUID }.

Record MenuColumns := {
  menu_title : string;
  menu_description : string }.

(** A table: its rows in insertion order, each the primary key with the
    other columns. *)
Definition Table (C : Type) := list (UUID * C).

Record Database := {
  dishes : Table DishColumns;
  submenus : Table SubmenuColumns;
  menus : Table MenuColumns }.

Definition has_key {C} (k : UUID) (r : UUID * C) : bool := N.eqb (fst r) k.

Definition where_id {C} (k : UUID) (t : Table C) : Table C := filter (has_key k) t.

Definition without_id {C} (k : UUID) (t : Table C) : Table C :=
  filter (fun r => negb (has_key k r)) t.

Definition key_in {C} (k : UUID) (t : Table C) : bool := existsb (has_key k) t.

(** [UPDATE t SET columns = c WHERE id = k]. *)
Definition update_row {C} (k : UUID) (c : C) (t : Table C) : Table C :=
  map (fun r => if has_key k r then (k, c) else r) t.

(** The primary-key constraint of a table. *)
Definition primary_key {C} (t : Table C) : Prop := NoDup (map fst t).

Definition primary_keys (db : Database) : Prop :=
  primary_key (dishes db) /\ primary_key (submenus db) /\ primary_key (menus db).

(** ** Mapped instances

    An instance of a mapped class belongs to the session that loaded it.  The
    classes of [models.py] define no [__eq__], so two instances are equal
    only when they are the same object; a session keeps one object per
    primary key, and every session starts with none.  Two lookups of one row
    in one session thus yield the same object, and lookups in two sessions
    yield two objects. *)

Record Dish := {
  dish_session : Session;
  dish_pk : UUID;
  dish_columns : DishColumns }.

(** [dishes] is [lazy="selectin"]: loaded together with the Submenu. *)
Record Submenu := {
  submenu_session : Session;
  submenu_pk : UUID;
  submenu_columns : SubmenuColumns;
  submenu_dishes : list Dish }.

(** [submenus] is [lazy="selectin"]: loaded together with the Menu. *)
Record Menu := {
  menu_session : Session;
  menu_pk : UUID;
  menu_columns : MenuColumns;
  menu_submenus : list Submenu }.

Definition load_dish (s : Session) (db : Database) (k : UUID) (c : DishColumns) : Dish :=
  {| dish_session := s; dish_pk := k; dish_columns := c |}.

Definition dishes_of (k : UUID) (db : Database) : Table DishColumns :=
  filter (fun r => N.eqb (dish_submenu_id (snd r)) k) (dishes db).

Definition load_submenu (s : Session) (db : Database) (k : UUID) (c : SubmenuColumns)
  : Submenu :=
  {| submenu_session := s; submenu_pk := k; submenu_columns := c;
     submenu_dishes := map (fun r => load_dish s db (fst r) (snd r)) (dishes_of k db) |}.

Definition submenus_of (k : UUID) (db : Database) : Table SubmenuColumns :=
  filter (fun r => N.eqb (submenu_menu_id (snd r)) k) (submenus db).

Definition load_menu (s : Session) (db : Database) (k : UUID) (c : MenuColumns) : Menu :=
  {| menu_session := s; menu_pk := k; menu_columns := c;
     menu_submenus := map (fun r => load_submenu s db (fst r) (snd r)) (submenus_of k db) |}.

(** [a is b] for two Submenu instances ([submenu_pk] is the attribute [id]). *)
Definition same_submenu (a b : Submenu) : bool :=
  Nat.eqb (submenu_session a) (submenu_session b) && N.eqb (submenu_pk a) (submenu_pk b).

(** [submenu in submenus]: list membership by equality of instances. *)
Definition submenu_in (submenu : Submenu) (l : list Submenu) : bool :=
  existsb (same_submenu submenu) l.

(** ** Deletion with [ON DELETE CASCADE] *)

Definition delete_dish_row (k : UUID) (db : Database) : Database :=
  {| dishes := without_id k (dishes db); submenus := submenus db; menus := menus db |}.

Definition delete_submenu_row (k : UUID) (db : Database) : Database :=
  {| dishes := filter (fun r => negb (N.eqb (dish_submenu_id (snd r)) k)) (dishes db);
     submenus := without_id k (submenus db);
     menus := menus db |}.

Definition delete_menu_row (k : UUID) (db : Database) : Database :=
  {| dishes :=
       filter (fun r => negb (key_in (dish_submenu_id (snd r)) (submenus_of k db)))
              (dishes db);
     submenus := filter (fun r => negb (N.eqb (submenu_menu_id (snd r)) k)) (submenus db);
     menus := without_id k (menus db) |}.

(** ** The entity classes

    What the generic repository needs to know of the class it is bound to:
    its table, how a row becomes an instance, its foreign key and what a
    delete of one of its rows removes. *)

Class Entity (C O : Type) := {
  table : Database -> Table C;
  with_table : Table C -> Database -> Database;
  load : Session -> Database -> UUID -> C -> O;
  id_of : O -> UUID;
  columns_of : O -> C;
  foreign_key : Database -> C -> bool;
  delete_row : UUID -> Database -> Database }.

#[export] Instance DishEntity : Entity DishColumns Dish := {
  table := dishes;
  with_table t db := {| dishes := t; submenus := submenus db; menus := menus db |};
  load := load_dish;
  id_of := dish_pk;
  columns_of := dish_columns;
  foreign_key db c := key_in (dish_submenu_id c) (submenus db);
  delete_row := delete_dish_row }.

#[export] Instance SubmenuEntity : Entity SubmenuColumns Submenu := {
  table := submenus;
  with_table t db := {| dishes := dishes db; submenus := t; menus := menus db |};
  load := load_submenu;
  id_of := submenu_pk;
  columns_of := submenu_columns;
  foreign_key db c := key_in (submenu_menu_id c) (menus db);
  delete_row := delete_submenu_row }.

#[export] Instance MenuEntity : Entity MenuColumns Menu := {
  table := menus;
  with_table t db := {| dishes := dishes db; submenus := submenus db; menus := t |};
  load := load_menu;
  id_of := menu_pk;
  columns_of := menu_columns;
  foreign_key _ _ := true;
  delete_row := delete_menu_row }.

(** ** The world and the monad of the service

    [store] holds the committed rows.  [view] is what the open session reads
    and writes: the store as it was when the session opened, with the work the
    session has flushed.  [sessions_opened] counts the calls of the session
    factory and [transactions_begun] those of [session.begin];
    [gen_random_uuid] is the server default of the [id] columns, the [n]-th
    draw being [gen_random_uuid n]. *)

Record World := {
  store : Database;
  view : Database;
  sessions_opened : nat;
  transactions_begun : nat;
  uuids_drawn : nat;
  gen_random_uuid : nat -> UUID }.

Inductive Error :=
| DishNotFoundError (dish_id : UUID)
| MenuNotFoundError (menu_id : UUID)
| SubmenuNotFoundError (submenu_id : UUID)
| SubmenuNotIncludedInMenuError (menu_id submenu_id : UUID)
| MultipleResultsFound
| IntegrityError
| StaleDataError.

Inductive Outcome (A : Type) :=
| Returned (a : A)
| Raised (e : Error).

Arguments Raised {A} e.

Definition M (A : Type) := World -> Outcome A * World.

Definition ret {A} (a : A) : M A := fun w => (Returned a, w).

Definition bind {A B} (m : M A) (f : A -> M B) : M B := fun w =>
  match m w with
  | (Returned a, w') => f a w'
  | (Raised e, w') => (Raised e, w')
  end.

Definition raise {A} (e : Error) : M A := fun w => (Raised e, w).

Notation "x <- m ;; k" := (bind m (fun x => k))
  (at level 61, m at next level, right associativity).
Notation "m ;; k" := (bind m (fun _ => k))
  (at level 61, right associativity).

Definition read_view : M Database := fun w => (Returned (view w), w).

Definition write_view (db : Database) : M unit := fun w =>
  (Returned tt,
   {| store := store w; view := db; sessions_opened := sessions_opened w;
      transactions_begun := transactions_begun w;
      uuids_drawn := uuids_drawn w; gen_random_uuid := gen_random_uuid w |}).

Definition draw_uuid : M UUID := fun w =>
  (Returned (gen_random_uuid w (uuids_drawn w)),
   {| store := store w; view := view w; sessions_opened := sessions_opened w;
      transactions_begun := transactions_begun w;
      uuids_drawn := S (uuids_drawn w); gen_random_uuid := gen_random_uuid w |}).

(** A new session sees the committed rows. *)
Definition open_session (w : World) : World :=
  {| store := store w; view := store w; sessions_opened := S (sessions_opened w);
     transactions_begun := transactions_begun w;
     uuids_drawn := uuids_drawn w; gen_random_uuid := gen_random_uuid w |}.

(** Closing a session, and rolling a transaction back, drop the work that
    was not committed. *)
Definition rollback (w : World) : World :=
  {| store := store w; view := store w; sessions_opened := sessions_opened w;
     transactions_begun := transactions_begun w;
     uuids_drawn := uuids_drawn w; gen_random_uuid := gen_random_uuid w |}.

Definition begin_transaction (w : World) : World :=
  {| store := store w; view := view w; sessions_opened := sessions_opened w;
     transactions_begun := S (transactions_begun w);
     uuids_drawn := uuids_drawn w; gen_random_uuid := gen_random_uuid w |}.

Definition commit (w : World) : World :=
  {| store := view w; view := view w; sessions_opened := sessions_opened w;
     transactions_begun := transactions_begun w;
     uuids_drawn := uuids_drawn w; gen_random_uuid := gen_random_uuid w |}.

(** [async with self.get_session() as session: body]. *)
Definition get_session {A} (body : Session -> M A) : M A := fun w =>
  let (r, w') := body (sessions_opened w) (open_session w) in (r, rollback w').

(** [async with session.begin(): body]: commit when the body returns, roll
    back when it raises. *)
Definition begin {A} (body : M A) : M A := fun w =>
  match body (begin_transaction w) with
  | (Returned a, w') => (Returned a, commit w')
  | (Raised e, w') => (Raised e, rollback w')
  end.

(** [if not x: raise e]. *)
Definition found {A} (x : option A) (e : Error) : M A :=
  match x with
  | Some a => ret a
  | None => raise e
  end.

(** [if c: raise e]. *)
Definition raise_if (c : bool) (e : Error) : M unit :=
  if c then raise e else ret tt.

(** ** The generic repository ([bases.py]) *)

(** What [save] is handed: an instance fresh from the class constructor,
    which has no [id] until the flush inserts it, or an instance the session
    loaded, with the attributes the caller has assigned. *)
Inductive Instance (C O : Type) :=
| Transient (c : C)
| Persistent (o : O).

Arguments Transient {C O} c.
Arguments Persistent {C O} o.

(** [Result.one_or_none]. *)
Definition one_or_none {A} (rows : list A) : M (option A) :=
  match rows with
  | [] => ret None
  | [a] => ret (Some a)
  | _ :: _ :: _ => raise MultipleResultsFound
  end.

Module CRUDRepository.
Section Bound.

Context {C O : Type} {entity_class : Entity C O}.

(** A call that is passed no session opens one of its own for its body. *)
Definition _wrap_session {A} (session : option Session) (body : Session -> M A) : M A :=
  match session with
  | None => get_session (fun wrapped_session => body wrapped_session)
  | Some session => body session
  end.

Definition delete (entity : O) (session : option Session) : M unit :=
  _wrap_session session (fun session =>
    db <- read_view ;;
    write_view (delete_row (Entity := entity_class) (id_of entity) db)).

Definition find (entity_id : UUID) (session : option Session) : M (option O) :=
  _wrap_session session (fun session =>
    db <- read_view ;;
    one_or_none
      (map (fun r => load session db (fst r) (snd r)) (where_id entity_id (table db)))).

Definition find_all (session : option Session) : M (list O) :=
  _wrap_session session (fun session =>
    db <- read_view ;;
    ret (map (fun r => load session db (fst r) (snd r)) (table db))).

(** [session.refresh(entity)]: the attributes and the eagerly loaded
    collections are read again from the row. *)
Definition refresh (session : Session) (k : UUID) : M O :=
  db <- read_view ;;
  match where_id k (table db) with
  | r :: _ => ret (load session db (fst r) (snd r))
  | [] => raise StaleDataError
  end.

(** [session.add(entity)] and the flush: an INSERT with the server default
    for [id] when the instance is new, an UPDATE of its row otherwise. *)
Definition flush (entity : Instance C O) : M UUID :=
  match entity with
  | Transient c =>
      k <- draw_uuid ;;
      db <- read_view ;;
      raise_if (key_in k (table db) || negb (foreign_key db c)) IntegrityError ;;
      write_view (with_table (table db ++ [(k, c)]) db) ;;
      ret k
  | Persistent o =>
      db <- read_view ;;
      raise_if (negb (key_in (id_of o) (table db))) StaleDataError ;;
      write_view (with_table (update_row (id_of o) (columns_of o) (table db)) db) ;;
      ret (id_of o)
  end.

Definition save (entity : Instance C O) (session : option Session) : M O :=
  _wrap_session session (fun session =>
    k <- flush entity ;;
    refresh session k).

End Bound.
End CRUDRepository.

(** ** The three repositories ([repositories.py]) *)

Module DishRepository.
Definition delete := CRUDRepository.delete (O := Dish).
Definition find := CRUDRepository.find (O := Dish).
Definition find_all := CRUDRepository.find_all (O := Dish).
Definition save := CRUDRepository.save (O := Dish).
End DishRepository.

Module MenuRepository.
Definition delete := CRUDRepository.delete (O := Menu).
Definition find := CRUDRepository.find (O := Menu).
Definition find_all := CRUDRepository.find_all (O := Menu).
Definition save := CRUDRepository.save (O := Menu).
End MenuRepository.

Module SubmenuRepository.
Definition delete := CRUDRepository.delete (O := Submenu).
Definition find := CRUDRepository.find (O := Submenu).
Definition find_all := CRUDRepository.find_all (O := Submenu).
Definition save := CRUDRepository.save (O := Submenu).
End SubmenuRepository.

(** ** The service ([services.py]) *)

(** The mappings the service returns. *)
Record DishData := {
  d_id : UUID;
  d_title : string;
  d_description : string;
  d_price : Decimal }.

Record MenuData := {
  m_id : UUID;
  m_title : string;
  m_description : string;
  m_dishes_count : nat;
  m_submenus_count : nat }.

Record SubmenuData := {
  s_id : UUID;
  s_title : string;
  s_description : string;
  s_dishes_count : nat }.

(** Truth value of a [str] and of a [decimal.Decimal]. *)
Definition str_bool (s : string) : bool :=
  match s with
  | EmptyString => false
  | String _ _ => true
  end.

Definition decimal_bool (d : Decimal) : bool := negb (Z.eqb d 0).

(** [x or y] for an optional [x]: [x] when it is neither [None] nor falsy. *)
Definition or_ {A} (truth : A -> bool) (x : option A) (y : A) : A :=
  match x with
  | Some v => if truth v then v else y
  | None => y
  end.

Definition dish_data (dish : Dish) : DishData :=
  {| d_id := dish_pk dish;
     d_title := dish_title (dish_columns dish);
     d_description := dish_description (dish_columns dish);
     d_price := dish_price (dish_columns dish) |}.

Definition menu_data (menu : Menu) : MenuData :=
  {| m_id := menu_pk menu;
     m_title := menu_title (menu_columns menu);
     m_description := menu_description (menu_columns menu);
     m_dishes_count :=
       list_sum (map (fun submenu => length (submenu_dishes submenu)) (menu_submenus menu));
     m_submenus_count := length (menu_submenus menu) |}.

Definition submenu_data (submenu : Submenu) : SubmenuData :=
  {| s_id := submenu_pk submenu;
     s_title := submenu_title (submenu_columns submenu);
     s_description := submenu_description (submenu_columns submenu);
     s_dishes_count := length (submenu_dishes submenu) |}.

Module CafeteriaService.

Definition get_dish_in_menu_submenu (menu_id submenu_id dish_id : UUID) : M DishData :=
  menu <- MenuRepository.find menu_id None ;;
  menu <- found menu (MenuNotFoundError menu_id) ;;
  submenu <- SubmenuRepository.find submenu_id None ;;
  submenu <- found submenu (SubmenuNotFoundError submenu_id) ;;
  raise_if (negb (submenu_in submenu (menu_submenus menu)))
           (SubmenuNotIncludedInMenuError menu_id submenu_id) ;;
  dish <- DishRepository.find dish_id None ;;
  dish <- found dish (DishNotFoundError dish_id) ;;
  ret (dish_data dish).

Definition get_dishes_in_menu_submenu (menu_id submenu_id : UUID) : M (list DishData) :=
  menu <- MenuRepository.find menu_id None ;;
  menu <- found menu (MenuNotFoundError menu_id) ;;
  submenu <- SubmenuRepository.find submenu_id None ;;
  match submenu with
  | None => ret []
  | Some submenu =>
      raise_if (negb (submenu_in submenu (menu_submenus menu)))
               (SubmenuNotIncludedInMenuError menu_id submenu_id) ;;
      ret (map dish_data (submenu_dishes submenu))
  end.

Definition add_dish_to_menu_submenu (menu_id submenu_id : UUID)
    (title description : string) (price : Decimal) : M DishData :=
  get_session (fun session => begin (
    menu <- MenuRepository.find menu_id (Some session) ;;
    menu <- found menu (MenuNotFoundError menu_id) ;;
    submenu <- SubmenuRepository.find submenu_id (Some session) ;;
    submenu <- found submenu (SubmenuNotFoundError submenu_id) ;;
    raise_if (negb (submenu_in submenu (menu_submenus menu)))
             (SubmenuNotIncludedInMenuError menu_id submenu_id) ;;
    dish <- DishRepository.save
              (Transient {| dish_title := title; dish_description := description;
                            dish_price := price; dish_submenu_id := submenu_id |})
              (Some session) ;;
    ret (dish_data dish))).

Definition correct_dish_in_menu_submenu (menu_id submenu_id dish_id : UUID)
    (corrected_title corrected_description : option string)
    (corrected_price : option Decimal) : M DishData :=
  get_session (fun session => begin (
    menu <- MenuRepository.find menu_id (Some session) ;;
    menu <- found menu (MenuNotFoundError menu_id) ;;
    submenu <- SubmenuRepository.find submenu_id (Some session) ;;
    submenu <- found submenu (SubmenuNotFoundError submenu_id) ;;
    raise_if (negb (submenu_in submenu (menu_submenus menu)))
             (SubmenuNotIncludedInMenuError menu_id submenu_id) ;;
    dish <- DishRepository.find dish_id (Some session) ;;
    dish <- found dish (DishNotFoundError dish_id) ;;
    let dish :=
      {| dish_session := dish_session dish; dish_pk := dish_pk dish;
         dish_columns :=
           {| dish_title := or_ str_bool corrected_title (dish_title (dish_columns dish));
              dish_description :=
                or_ str_bool corrected_description (dish_description (dish_columns dish));
              dish_price := or_ decimal_bool corrected_price (dish_price (dish_columns dish));
              dish_submenu_id := dish_submenu_id (dish_columns dish) |} |} in
    dish <- DishRepository.save (Persistent dish) (Some session) ;;
    ret (dish_data dish))).

Definition remove_dish_from_menu_submenu (menu_id submenu_id dish_id : UUID) : M DishData :=
  get_session (fun session => begin (
    menu <- MenuRepository.find menu_id (Some session) ;;
    menu <- found menu (MenuNotFoundError menu_id) ;;
    submenu <- SubmenuRepository.find submenu_id (Some session) ;;
    submenu <- found submenu (SubmenuNotFoundError submenu_id) ;;
    raise_if (negb (submenu_in submenu (menu_submenus menu)))
             (SubmenuNotIncludedInMenuError menu_id submenu_id) ;;
    dish <- DishRepository.find dish_id (Some session) ;;
    dish <- found dish (DishNotFoundError dish_id) ;;
    DishRepository.delete dish (Some session) ;;
    ret (dish_data dish))).

Definition get_menu (menu_id : UUID) : M MenuData :=
  menu <- MenuRepository.find menu_id None ;;
  menu <- found menu (MenuNotFoundError menu_id) ;;
  ret (menu_data menu).

Definition get_menus : M (list MenuData) :=
  menus <- MenuRepository.find_all None ;;
  ret (map menu_data menus).

Definition create_menu (title description : string) : M MenuData :=
  get_session (fun session => begin (
    menu <- MenuRepository.save
              (Transient {| menu_title := title; menu_description := description |})
              (Some session) ;;
    ret (menu_data menu))).

Definition correct_menu (menu_id : UUID)
    (corrected_title corrected_description : option string) : M MenuData :=
  get_session (fun session => begin (
    menu <- MenuRepository.find menu_id (Some session) ;;
    menu <- found menu (MenuNotFoundError menu_id) ;;
    let menu :=
      {| menu_session := menu_session menu; menu_pk := menu_pk menu;
         menu_columns :=
           {| menu_title := or_ str_bool corrected_title (menu_title (menu_columns menu));
              menu_description :=
                or_ str_bool corrected_description (menu_description (menu_columns menu)) |};
         menu_submenus := menu_submenus menu |} in
    menu <- MenuRepository.save (Persistent menu) (Some session) ;;
    ret (menu_data menu))).

Definition delete_menu (menu_id : UUID) : M MenuData :=
  get_session (fun session => begin (
    menu <- MenuRepository.find menu_id (Some session) ;;
    menu <- found menu (MenuNotFoundError menu_id) ;;
    MenuRepository.delete menu (Some session) ;;
    ret (menu_data menu))).

Definition get_menu_submenu (menu_id submenu_id : UUID) : M SubmenuData :=
  menu <- MenuRepository.find menu_id None ;;
  menu <- found menu (MenuNotFoundError menu_id) ;;
  submenu <- SubmenuRepository.find submenu_id None ;;
  submenu <- found submenu (SubmenuNotFoundError submenu_id) ;;
  raise_if (negb (submenu_in submenu (menu_submenus menu)))
           (SubmenuNotIncludedInMenuError menu_id submenu_id) ;;
  ret (submenu_data submenu).

Definition get_menu_submenus (menu_id : UUID) : M (list SubmenuData) :=
  menu <- MenuRepository.find menu_id None ;;
  menu <- found menu (MenuNotFoundError menu_id) ;;
  submenus <- SubmenuRepository.find_all None ;;
  ret (map submenu_data submenus).

Definition create_menu_submenu (menu_id : UUID) (title description : string)
  : M SubmenuData :=
  get_session (fun session => begin (
    menu <- MenuRepository.find menu_id (Some session) ;;
    menu <- found menu (MenuNotFoundError menu_id) ;;
    submenu <- SubmenuRepository.save
                 (Transient {| submenu_title := title; submenu_description := description;
                               submenu_menu_id := menu_id |})
                 (Some session) ;;
    ret {| s_id := submenu_pk submenu;
           s_title := submenu_title (submenu_columns submenu);
           s_description := menu_description (menu_columns menu);
           s_dishes_count := length (submenu_dishes submenu) |})).

Definition correct_menu_submenu (menu_id submenu_id : UUID)
    (corrected_title corrected_description : option string) : M SubmenuData :=
  get_session (fun session => begin (
    menu <- MenuRepository.find menu_id (Some session) ;;
    menu <- found menu (MenuNotFoundError menu_id) ;;
    submenu <- SubmenuRepository.find submenu_id (Some session) ;;
    submenu <- found submenu (SubmenuNotFoundError submenu_id) ;;
    raise_if (negb (submenu_in submenu (menu_submenus menu)))
             (SubmenuNotIncludedInMenuError menu_id submenu_id) ;;
    let submenu :=
      {| submenu_session := submenu_session submenu;
         submenu_pk := submenu_pk submenu;
         submenu_columns :=
           {| submenu_title :=
                or_ str_bool corrected_title (submenu_title (submenu_columns submenu));
              submenu_description :=
                or_ str_bool corrected_description
                    (submenu_description (submenu_columns submenu));
              submenu_menu_id := submenu_menu_id (submenu_columns submenu) |};
         submenu_dishes := submenu_dishes submenu |} in
    submenu <- SubmenuRepository.save (Persistent submenu) (Some session) ;;
    ret (submenu_data submenu))).

Definition delete_menu_submenu (menu_id submenu_id : UUID) : M SubmenuData :=
  get_session (fun session => begin (
    menu <- MenuRepository.find menu_id (Some session) ;;
    menu <- found menu (MenuNotFoundError menu_id) ;;
    submenu <- SubmenuRepository.find submenu_id (Some session) ;;
    submenu <- found submenu (SubmenuNotFoundError submenu_id) ;;
    SubmenuRepository.delete submenu (Some session) ;;
    ret (submenu_data submenu))).

End CafeteriaService.

(** ** Reading the properties

    [instance_of s db k] is what a lookup of the key [k] yields in session [s]
    over the rows [db] when the primary key holds: the instance of the row,
    or nothing. *)

Definition instance_of {C O} {entity_class : Entity C O}
    (s : Session) (db : Database) (k : UUID) : option O :=
  match where_id k (table db) with
  | r :: _ => Some (load s db (fst r) (snd r))
  | [] => None
  end.

(** The outcome of the query of [find]: the rows with the key, through
    [one_or_none]. *)
Definition query_one {C O} {entity_class : Entity C O}
    (s : Session) (db : Database) (k : UUID) : Outcome (option O) :=
  match where_id k (table db) with
  | [] => Returned None
  | [r] => Returned (Some (load s db (fst r) (snd r)))
  | _ :: _ :: _ => Raised MultipleResultsFound
  end.

(** The rows a repository call reads and the session it runs in: those of the
    caller's session when one is passed, the committed rows and a new session
    otherwise. *)
Definition rows_read (w : World) (session : option Session) : Database :=
  match session with
  | None => store w
  | Some _ => view w
  end.

Definition session_used (w : World) (session : option Session) : Session :=
  match session with
  | None => sessions_opened w
  | Some s => s
  end.







(** A create, correct or delete operation keeps to one transaction scope:
    it opens one session and begins one transaction, and when it raises the
    committed rows are those of before. *)
Definition atomic {A} (operation : M A) : Prop :=
  forall w,
    sessions_opened (snd (operation w)) = S (sessions_opened w) /\
    transactions_begun (snd (operation w)) = S (transactions_begun w) /\
    forall e, fst (operation w) = Raised e -> store (snd (operation w)) = store w.

(** A computation that runs inside the caller's session: it opens no session,
    begins no transaction and commits nothing. *)
Definition in_session {A} (body : M A) : Prop :=
  forall w,
    store (snd (body w)) = store w /\
    sessions_opened (snd (body w)) = sessions_opened w /\
    transactions_begun (snd (body w)) = transactions_begun w.

(** What the mapping of a class guarantees: the table is the one written, and
    an instance carries the key and the columns of its row. *)
Class Mapped {C O : Type} (entity_class : Entity C O) : Prop := {
  table_with_table : forall t db, table (with_table t db) = t;
  id_of_load : forall s db k c, id_of (load s db k c) = k;
  columns_of_load : forall s db k c, columns_of (load s db k c) = c;
  table_keys : forall db, primary_keys db -> primary_key (table db);
  with_table_keys :
    forall t db, primary_key t -> primary_keys db -> primary_keys (with_table t db);
  delete_row_keys :
    forall k db, primary_keys db -> primary_keys (delete_row (Entity := entity_class) k db) }.

(** A computation under which the rows the session sees keep their primary
    keys. *)
Definition keeps_keys {A} (body : M A) : Prop :=
  forall w, primary_keys (view w) -> primary_keys (view (snd (body w))).

(** The world once the open session has flushed [db]. *)
Definition flushed (db : Database) (w : World) : World := snd (write_view db w).

Definition drawn (w : World) : World := snd (draw_uuid w).

(** ** Sample worlds *)

Definition empty_database : Database := {| dishes := []; submenus := []; menus := [] |}.

Definition world_of (db : Database) (first_uuid : nat) : World :=
  {| store := db; view := db; sessions_opened := 0; transactions_begun := 0;
     uuids_drawn := 0;
     gen_random_uuid := fun n => N.of_nat (first_uuid + n) |}.

(** Two menus; the first has two submenus, the second one; three dishes. *)
Definition sample_database : Database :=
  {| dishes :=
       [(20%N, {| dish_title := "Borscht"; dish_description := "Beet soup";
                  dish_price := 45050%Z; dish_submenu_id := 10%N |});
        (21%N, {| dish_title := "Solyanka"; dish_description := "Sour soup";
                  dish_price := 39900%Z; dish_submenu_id := 10%N |});
        (22%N, {| dish_title := "Kvass"; dish_description := "Bread drink";
                  dish_price := 12000%Z; dish_submenu_id := 11%N |})];
     submenus :=
       [(10%N, {| submenu_title := "Soups"; submenu_description := "Hot soups";
                  submenu_menu_id := 1%N |});
        (11%N, {| submenu_title := "Drinks"; submenu_description := "Cold drinks";
                  submenu_menu_id := 1%N |});
        (12%N, {| submenu_title := "Cakes"; submenu_description := "Sweet cakes";
                  submenu_menu_id := 2%N |})];
     menus :=
       [(1%N, {| menu_title := "Lunch"; menu_description := "Served at noon" |});
        (2%N, {| menu_title := "Dessert"; menu_description := "Served all day" |})] |}.

Definition sample_world : World := world_of sample_database 100.

(** The world an operation leaves. *)
Definition after {A} (operation : M A) (w : World) : World := snd (operation w).

(** The scenario of the aggregate property: Menu M, Submenu S under M, two
    Dishes under S, from an empty store whose server draws 1, 2, 3, 4. *)
Definition aggregate_world : World :=
  after (CafeteriaService.add_dish_to_menu_submenu 1%N 2%N "D2" "second" 250%Z)
    (after (CafeteriaService.add_dish_to_menu_submenu 1%N 2%N "D1" "first" 100%Z)
       (after (CafeteriaService.create_menu_submenu 1%N "S" "submenu")
          (after (CafeteriaService.create_menu "M" "menu")
             (world_of empty_database 1)))).

(** The scenario of the containment property: Menus A and B, then Submenu S
    created under A; the server draws 1, 2, 3. *)
Definition containment_world : World :=
  after (CafeteriaService.create_menu_submenu 1%N "S" "submenu of A")
    (after (CafeteriaService.create_menu "B" "second menu")
       (after (CafeteriaService.create_menu "A" "first menu")
          (world_of empty_database 1))).

(** A world whose server draws 20, the key of a Dish already stored. *)
Definition colliding_world : World := world_of sample_database 20.

(** The foreign keys of the store: every Submenu row names the key of a Menu
    row, and every Dish row the key of a Submenu row. *)
Definition foreign_keys (db : Database) : Prop :=
  Forall (fun r => key_in (submenu_menu_id (snd r)) (menus db) = true) (submenus db)
  /\ Forall (fun r => key_in (dish_submenu_id (snd r)) (submenus db) = true) (dishes db).

(** A computation that only reads: it commits nothing, begins no transaction
    and draws no identifier. *)
Definition read_only {A} (operation : M A) : Prop :=
  forall w,
    store (snd (operation w)) = store w /\
    transactions_begun (snd (operation w)) = transactions_begun w /\
    uuids_drawn (snd (operation w)) = uuids_drawn w.

(** ** Tables *)

Unset Implicit Arguments.

Section Tables.

Context {C : Type}.

Lemma where_id_absent (k : UUID) (t : Table C) :
  key_in k t = false -> where_id k t = [].
Proof.
  unfold key_in, where_id.
  induction t as [|r t IH]; simpl; intros H; [reflexivity|].
  apply orb_false_iff in H. destruct H as [Hr Ht].
  rewrite Hr. auto.
Qed.

Lemma key_in_spec (k : UUID) (t : Table C) :
  key_in k t = true <-> exists c, In (k, c) t.
Proof.
  unfold key_in. rewrite existsb_exists. split.
  - intros [[k' c] [Hin Hk]]. unfold has_key in Hk. simpl in Hk.
    apply N.eqb_eq in Hk. subst k'. eauto.
  - intros [c Hin]. exists (k, c). split; [assumption|].
    unfold has_key. simpl. apply N.eqb_refl.
Qed.

Lemma key_in_map_fst (k : UUID) (t : Table C) :
  key_in k t = true <-> In k (map fst t).
Proof.
  rewrite key_in_spec, in_map_iff. split.
  - intros [c Hin]. exists (k, c). auto.
  - intros [[k' c] [Hk Hin]]. simpl in Hk. subst k'. eauto.
Qed.

Lemma where_id_present (k : UUID) (c : C) (t : Table C) :
  primary_key t -> In (k, c) t -> where_id k t = [(k, c)].
Proof.
  unfold primary_key, where_id.
  induction t as [|[k' c'] t IH]; simpl; intros Hpk Hin; [contradiction|].
  inversion Hpk as [|? ? Hnotin Hpk']; subst.
  unfold has_key at 1. simpl.
  destruct Hin as [Heq | Hin].
  - inversion Heq; subst. rewrite N.eqb_refl. f_equal.
    apply where_id_absent.
    destruct (key_in k t) eqn:E; [|reflexivity].
    apply key_in_map_fst in E. contradiction.
  - destruct (N.eqb_spec k' k) as [-> | Hne].
    + exfalso. apply Hnotin. apply in_map_iff. exists (k, c). auto.
    + auto.
Qed.

Lemma where_id_key_in (k : UUID) (t : Table C) :
  primary_key t -> key_in k t = true -> exists c, In (k, c) t /\ where_id k t = [(k, c)].
Proof.
  intros Hpk Hin. apply key_in_spec in Hin. destruct Hin as [c Hin].
  exists c. split; [assumption|]. now apply where_id_present.
Qed.

Lemma In_key_in (k : UUID) (c : C) (t : Table C) : In (k, c) t -> key_in k t = true.
Proof. intros Hin. apply key_in_spec. eauto. Qed.

Lemma In_unique (k : UUID) (c c' : C) (t : Table C) :
  primary_key t -> In (k, c) t -> In (k, c') t -> c = c'.
Proof.
  intros Hpk H H'.
  pose proof (where_id_present _ _ _ Hpk H) as E.
  rewrite (where_id_present _ _ _ Hpk H') in E. congruence.
Qed.

Lemma where_id_update_row (k : UUID) (c : C) (t : Table C) :
  where_id k (update_row k c t) = map (fun _ => (k, c)) (where_id k t).
Proof.
  unfold where_id, update_row.
  induction t as [|r t IH]; simpl; [reflexivity|].
  destruct (has_key k r) eqn:E; simpl.
  - unfold has_key at 1. simpl. rewrite N.eqb_refl. simpl. now rewrite IH.
  - rewrite E. exact IH.
Qed.

Lemma key_in_update_row (k k' : UUID) (c : C) (t : Table C) :
  key_in k' (update_row k c t) = key_in k' t.
Proof.
  unfold key_in, update_row.
  induction t as [|r t IH]; simpl; [reflexivity|].
  rewrite IH. f_equal.
  destruct (has_key k r) eqn:E; [|reflexivity].
  unfold has_key in *. simpl. apply N.eqb_eq in E. now rewrite E.
Qed.

Lemma where_id_app (k : UUID) (t t' : Table C) :
  where_id k (t ++ t') = where_id k t ++ where_id k t'.
Proof. apply filter_app. Qed.

End Tables.

(** ** The repository *)

Section Repository.

Context {C O : Type} {entity_class : Entity C O}.

Lemma find_in_session (k : UUID) (s : Session) (w : World) :
  CRUDRepository.find k (Some s) w = (query_one s (view w) k, w).
Proof.
  unfold CRUDRepository.find, CRUDRepository._wrap_session, bind, read_view, query_one.
  destruct (where_id k (table (view w))) as [|r [|r' t]]; reflexivity.
Qed.

Lemma find_unscoped (k : UUID) (w : World) :
  CRUDRepository.find k None w
  = (query_one (sessions_opened w) (store w) k, open_session w).
Proof.
  unfold CRUDRepository.find, CRUDRepository._wrap_session, get_session, bind,
    read_view, query_one.
  cbn [view open_session].
  destruct (where_id k (table (store w))) as [|r [|r' t]]; reflexivity.
Qed.

Lemma find_all_unscoped (w : World) :
  CRUDRepository.find_all None w
  = (Returned (map (fun r => load (sessions_opened w) (store w) (fst r) (snd r))
                   (table (store w))),
     open_session w).
Proof. reflexivity. Qed.

Lemma query_one_primary_key (s : Session) (db : Database) (k : UUID) :
  primary_key (table db) -> query_one s db k = Returned (instance_of s db k).
Proof.
  intros Hpk. unfold query_one, instance_of.
  destruct (key_in k (table db)) eqn:E.
  - destruct (where_id_key_in k (table db) Hpk E) as [c [_ ->]]. reflexivity.
  - now rewrite (where_id_absent k (table db) E).
Qed.

Lemma instance_of_present (s : Session) (db : Database) (k : UUID) (c : C) :
  primary_key (table db) -> In (k, c) (table db) ->
  instance_of s db k = Some (load s db k c).
Proof.
  intros Hpk Hin. unfold instance_of.
  now rewrite (where_id_present k c (table db) Hpk Hin).
Qed.

Lemma instance_of_absent (s : Session) (db : Database) (k : UUID) :
  key_in k (table db) = false -> instance_of s db k = None.
Proof.
  intros E. unfold instance_of. now rewrite (where_id_absent k (table db) E).
Qed.

End Repository.

Lemma primary_key_filter {C} (f : UUID * C -> bool) (t : Table C) :
  primary_key t -> primary_key (filter f t).
Proof.
  unfold primary_key. induction t as [|r t IH]; cbn [filter map]; intros Hpk.
  - exact Hpk.
  - inversion Hpk as [|? ? Hnotin Hpk']; subst.
    destruct (f r); [|auto]. cbn [map]. constructor; [|auto].
    intros Hin. apply Hnotin. apply in_map_iff in Hin.
    destruct Hin as [r' [Hfst Hr']]. apply filter_In in Hr'.
    apply in_map_iff. exists r'. tauto.
Qed.

Lemma primary_key_update_row {C} (k : UUID) (c : C) (t : Table C) :
  primary_key t -> primary_key (update_row k c t).
Proof.
  unfold primary_key, update_row. intros Hpk.
  replace (map fst (map (fun r => if has_key k r then (k, c) else r) t)) with (map fst t);
    [exact Hpk|].
  rewrite map_map. apply map_ext. intros r.
  unfold has_key. destruct (N.eqb_spec (fst r) k); cbn [fst]; congruence.
Qed.

Lemma primary_key_app {C} (k : UUID) (c : C) (t : Table C) :
  key_in k t = false -> primary_key t -> primary_key (t ++ [(k, c)]).
Proof.
  unfold primary_key. intros Hfresh Hpk. rewrite map_app. cbn [map fst].
  apply NoDup_app; [exact Hpk | repeat constructor; intros [] |].
  intros k' Hin [<- | []].
  apply key_in_map_fst in Hin. congruence.
Qed.

#[export] Instance DishMapped : Mapped DishEntity.
Proof.
  split; try reflexivity.
  - intros db (Hd & Hs & Hm). exact Hd.
  - intros t db Ht (Hd & Hs & Hm). repeat split; assumption.
  - intros k db (Hd & Hs & Hm). repeat split; try assumption.
    now apply primary_key_filter.
Qed.

#[export] Instance SubmenuMapped : Mapped SubmenuEntity.
Proof.
  split; try reflexivity.
  - intros db (Hd & Hs & Hm). exact Hs.
  - intros t db Ht (Hd & Hs & Hm). repeat split; assumption.
  - intros k db (Hd & Hs & Hm). repeat split; try assumption;
      now apply primary_key_filter.
Qed.

#[export] Instance MenuMapped : Mapped MenuEntity.
Proof.
  split; try reflexivity.
  - intros db (Hd & Hs & Hm). exact Hm.
  - intros t db Ht (Hd & Hs & Hm). repeat split; assumption.
  - intros k db (Hd & Hs & Hm). repeat split; now apply primary_key_filter.
Qed.

Section Writes.

Context {C O : Type} {entity_class : Entity C O} {mapped : Mapped entity_class}.

Lemma save_persistent (o : O) (c0 : C) (s : Session) (w : World) :
  primary_key (table (view w)) ->
  In (id_of o, c0) (table (view w)) ->
  let db := with_table (update_row (id_of o) (columns_of o) (table (view w))) (view w) in
  CRUDRepository.save (Persistent o) (Some s) w
  = (Returned (load s db (id_of o) (columns_of o)), flushed db w).
Proof.
  intros Hpk Hin db.
  unfold CRUDRepository.save, CRUDRepository._wrap_session, CRUDRepository.flush,
    CRUDRepository.refresh, bind, read_view, raise_if.
  rewrite (In_key_in _ _ _ Hin). cbn [negb ret write_view view].
  rewrite table_with_table, where_id_update_row.
  rewrite (where_id_present _ _ _ Hpk Hin). reflexivity.
Qed.

Lemma save_transient (c : C) (s : Session) (w : World) :
  let k := gen_random_uuid w (uuids_drawn w) in
  let db := with_table (table (view w) ++ [(k, c)]) (view w) in
  key_in k (table (view w)) = false ->
  foreign_key (view w) c = true ->
  CRUDRepository.save (Transient c) (Some s) w
  = (Returned (load s db k c), flushed db (drawn w)).
Proof.
  intros k db Hfresh Hfk.
  unfold CRUDRepository.save, CRUDRepository._wrap_session, CRUDRepository.flush,
    CRUDRepository.refresh, bind, read_view, raise_if, draw_uuid.
  cbn [view]. fold k. rewrite Hfresh, Hfk. cbn [negb orb ret write_view view].
  rewrite table_with_table, where_id_app, (where_id_absent _ _ Hfresh).
  unfold where_id. cbn [filter app]. unfold has_key at 1. cbn [fst].
  rewrite N.eqb_refl. reflexivity.
Qed.

Lemma delete_in_session (o : O) (s : Session) (w : World) :
  CRUDRepository.delete o (Some s) w
  = (Returned tt, flushed (delete_row (Entity := entity_class) (id_of o) (view w)) w).
Proof. reflexivity. Qed.

End Writes.

Section Lookups.

Variables (s : Session) (db : Database) (k : UUID).

Lemma menu_found (c : MenuColumns) :
  primary_key (menus db) -> In (k, c) (menus db) ->
  query_one (O := Menu) s db k = Returned (Some (load_menu s db k c)).
Proof.
  intros Hpk Hin. rewrite query_one_primary_key by exact Hpk.
  now rewrite (instance_of_present (entity_class := MenuEntity) s db k c Hpk Hin).
Qed.

Lemma menu_missing :
  key_in k (menus db) = false -> query_one (O := Menu) s db k = Returned None.
Proof.
  intros E. unfold query_one. cbn [table MenuEntity].
  now rewrite (where_id_absent k (menus db) E).
Qed.

Lemma submenu_found (c : SubmenuColumns) :
  primary_key (submenus db) -> In (k, c) (submenus db) ->
  query_one (O := Submenu) s db k = Returned (Some (load_submenu s db k c)).
Proof.
  intros Hpk Hin. rewrite query_one_primary_key by exact Hpk.
  now rewrite (instance_of_present (entity_class := SubmenuEntity) s db k c Hpk Hin).
Qed.

Lemma submenu_missing :
  key_in k (submenus db) = false -> query_one (O := Submenu) s db k = Returned None.
Proof.
  intros E. unfold query_one. cbn [table SubmenuEntity].
  now rewrite (where_id_absent k (submenus db) E).
Qed.



End Lookups.

Ltac repositories :=
  unfold MenuRepository.find, SubmenuRepository.find, DishRepository.find,
    MenuRepository.find_all, SubmenuRepository.find_all, DishRepository.find_all,
    MenuRepository.save, SubmenuRepository.save, DishRepository.save,
    MenuRepository.delete, SubmenuRepository.delete, DishRepository.delete.

(** One repository read of a service body, with the lemma that decides it. *)
Ltac look_up H :=
  unfold bind at 1;
  first [ rewrite find_in_session | rewrite find_unscoped ];
  cbn [view store open_session begin_transaction sessions_opened];
  rewrite H by assumption;
  cbn [found]; unfold bind at 1; cbn [ret raise fst snd].

(** A step of a service body that is no repository call. *)
Ltac pass := unfold bind at 1; cbn [raise_if negb ret raise fst snd].




(** ** Membership of a Submenu instance in the collection of a Menu instance *)

Lemma submenu_in_other_session (s s' : Session) (db db' : Database)
    (k m : UUID) (c : SubmenuColumns) (mc : MenuColumns) :
  s <> s' ->
  submenu_in (load_submenu s db k c) (menu_submenus (load_menu s' db' m mc)) = false.
Proof.
  intros Hs. unfold submenu_in. cbn [menu_submenus load_menu].
  induction (submenus_of m db') as [|r t IH]; [reflexivity|].
  cbn [map existsb]. rewrite IH. unfold same_submenu. cbn [submenu_session load_submenu].
  apply Nat.eqb_neq in Hs. now rewrite Hs.
Qed.

Lemma submenu_in_same_session (s : Session) (db : Database)
    (k m : UUID) (c : SubmenuColumns) (mc : MenuColumns) :
  primary_key (submenus db) -> In (k, c) (submenus db) ->
  submenu_in (load_submenu s db k c) (menu_submenus (load_menu s db m mc))
  = N.eqb (submenu_menu_id c) m.
Proof.
  intros Hpk Hin. unfold submenu_in. cbn [menu_submenus load_menu].
  destruct (N.eqb_spec (submenu_menu_id c) m) as [Hm | Hm].
  - apply existsb_exists. exists (load_submenu s db k c). split.
    + apply in_map_iff. exists (k, c). split; [reflexivity|].
      apply filter_In. split; [assumption|]. cbn [snd]. now apply N.eqb_eq.
    + unfold same_submenu. now rewrite Nat.eqb_refl, N.eqb_refl.
  - destruct (existsb _ _) eqn:E; [|reflexivity].
    apply existsb_exists in E. destruct E as [x [Hx Hsame]].
    apply in_map_iff in Hx. destruct Hx as [[k' c'] [<- Hrow]].
    apply filter_In in Hrow. destruct Hrow as [Hrow Hmenu]. cbn [snd fst] in *.
    unfold same_submenu in Hsame. cbn [submenu_session submenu_pk load_submenu] in Hsame.
    apply andb_true_iff in Hsame. destruct Hsame as [_ Hk].
    apply N.eqb_eq in Hk. subst k'. apply N.eqb_eq in Hmenu.
    rewrite (In_unique k c c' (submenus db) Hpk Hin Hrow) in Hm. contradiction.
Qed.

(** ** The operations addressed at a Dish: the verdict of the validator *)

Section DishOperations.

Variables (w : World) (menu_id submenu_id dish_id : UUID).

Hypothesis keys : primary_keys (store w).


Variables (corrected_title corrected_description : option string)
          (corrected_price : option Decimal).



End DishOperations.

(** ** What the operations return *)

Section Returns.

Variable w : World.

Hypothesis keys : primary_keys (store w).

Lemma get_menu_returns (menu_id : UUID) (mc : MenuColumns) :
  In (menu_id, mc) (menus (store w)) ->
  fst (CafeteriaService.get_menu menu_id w)
  = Returned
      {| m_id := menu_id;
         m_title := menu_title mc;
         m_description := menu_description mc;
         m_dishes_count :=
           list_sum (map (fun r => length (dishes_of (fst r) (store w)))
                         (submenus_of menu_id (store w)));
         m_submenus_count := length (submenus_of menu_id (store w)) |}.
Proof.
  intros Hmc. destruct keys as (Hd & Hs & Hm).
  unfold CafeteriaService.get_menu. repositories.
  look_up (menu_found (sessions_opened w) (store w) menu_id mc).
  unfold menu_data. cbn [menu_pk menu_columns menu_submenus load_menu].
  rewrite length_map, map_map. do 3 f_equal.
  apply map_ext. intros r. cbn [submenu_dishes load_submenu]. apply length_map.
Qed.

Lemma get_menu_submenus_returns (menu_id : UUID) (mc : MenuColumns) :
  In (menu_id, mc) (menus (store w)) ->
  fst (CafeteriaService.get_menu_submenus menu_id w)
  = Returned
      (map (fun r => {| s_id := fst r;
                        s_title := submenu_title (snd r);
                        s_description := submenu_description (snd r);
                        s_dishes_count := length (dishes_of (fst r) (store w)) |})
           (submenus (store w))).
Proof.
  intros Hmc. destruct keys as (Hd & Hs & Hm).
  unfold CafeteriaService.get_menu_submenus. repositories.
  look_up (menu_found (sessions_opened w) (store w) menu_id mc).
  unfold bind at 1. rewrite find_all_unscoped. cbn [ret fst]. f_equal.
  rewrite map_map. apply map_ext. intros [k c].
  unfold submenu_data. cbn [load SubmenuEntity load_submenu submenu_pk submenu_columns
    submenu_dishes fst snd store open_session].
  now rewrite length_map.
Qed.

(** The unscoped reads load the Menu and the Submenu in two sessions: the
    Submenu instance is never one of the Menu's. *)
Lemma get_menu_submenu_rejects (menu_id submenu_id : UUID)
    (mc : MenuColumns) (sc : SubmenuColumns) :
  In (menu_id, mc) (menus (store w)) -> In (submenu_id, sc) (submenus (store w)) ->
  fst (CafeteriaService.get_menu_submenu menu_id submenu_id w)
  = Raised (SubmenuNotIncludedInMenuError menu_id submenu_id).
Proof.
  intros Hmc Hsc. destruct keys as (Hd & Hs & Hm).
  unfold CafeteriaService.get_menu_submenu. repositories.
  look_up (menu_found (sessions_opened w) (store w) menu_id mc).
  look_up (submenu_found (S (sessions_opened w)) (store w) submenu_id sc).
  rewrite submenu_in_other_session by lia. reflexivity.
Qed.

Lemma get_dish_rejects (menu_id submenu_id dish_id : UUID)
    (mc : MenuColumns) (sc : SubmenuColumns) :
  In (menu_id, mc) (menus (store w)) -> In (submenu_id, sc) (submenus (store w)) ->
  fst (CafeteriaService.get_dish_in_menu_submenu menu_id submenu_id dish_id w)
  = Raised (SubmenuNotIncludedInMenuError menu_id submenu_id).
Proof.
  intros Hmc Hsc. destruct keys as (Hd & Hs & Hm).
  unfold CafeteriaService.get_dish_in_menu_submenu. repositories.
  look_up (menu_found (sessions_opened w) (store w) menu_id mc).
  look_up (submenu_found (S (sessions_opened w)) (store w) submenu_id sc).
  rewrite submenu_in_other_session by lia. reflexivity.
Qed.

Lemma correct_menu_submenu_rejects (menu_id submenu_id : UUID)
    (corrected_title corrected_description : option string)
    (mc : MenuColumns) (sc : SubmenuColumns) :
  In (menu_id, mc) (menus (store w)) -> In (submenu_id, sc) (submenus (store w)) ->
  submenu_menu_id sc <> menu_id ->
  exists w',
    CafeteriaService.correct_menu_submenu menu_id submenu_id
      corrected_title corrected_description w
    = (Raised (SubmenuNotIncludedInMenuError menu_id submenu_id), w')
    /\ store w' = store w.
Proof.
  intros Hmc Hsc Hother. destruct keys as (Hd & Hs & Hm).
  unfold CafeteriaService.correct_menu_submenu, get_session, begin. repositories.
  look_up (menu_found (sessions_opened w) (store w) menu_id mc).
  look_up (submenu_found (sessions_opened w) (store w) submenu_id sc).
  rewrite submenu_in_same_session by assumption.
  apply N.eqb_neq in Hother. rewrite Hother.
  eexists. split; reflexivity.
Qed.

End Returns.

Section Mutations.

Variable w : World.

Hypothesis keys : primary_keys (store w).





Lemma create_menu_submenu_returns (menu_id : UUID) (title description : string)
    (mc : MenuColumns) :
  In (menu_id, mc) (menus (store w)) ->
  let k := gen_random_uuid w (uuids_drawn w) in
  key_in k (submenus (store w)) = false ->
  exists w',
    CafeteriaService.create_menu_submenu menu_id title description w
    = (Returned {| s_id := k;
                      s_title := title;
                      s_description := menu_description mc;
                      s_dishes_count := length (dishes_of k (store w)) |}, w')
    /\ store w' = {| dishes := dishes (store w);
          submenus := submenus (store w) ++ [(k, {| submenu_title := title;
                                             submenu_description := description;
                                             submenu_menu_id := menu_id |})];
          menus := menus (store w) |}.
Proof.
  intros Hmc k Hfresh. destruct keys as (Hd & Hs & Hm).
  unfold CafeteriaService.create_menu_submenu, get_session, begin. repositories.
  look_up (menu_found (sessions_opened w) (store w) menu_id mc).
  unfold bind at 1.
  rewrite (save_transient (entity_class := SubmenuEntity)).
  - cbn [fst snd ret]. eexists. split.
    + do 2 f_equal. cbn [load SubmenuEntity load_submenu submenu_pk submenu_columns
        submenu_dishes submenu_title menu_columns load_menu menu_description].
      now rewrite length_map.
    + reflexivity.
  - exact Hfresh.
  - cbn [foreign_key SubmenuEntity submenu_menu_id view open_session].
    exact (In_key_in _ _ _ Hmc).
Qed.

(** The Submenu need not be one of the Menu's: the delete has no membership
    test. *)
Lemma delete_menu_submenu_returns (menu_id submenu_id : UUID)
    (mc : MenuColumns) (sc : SubmenuColumns) :
  In (menu_id, mc) (menus (store w)) -> In (submenu_id, sc) (submenus (store w)) ->
  exists w',
    CafeteriaService.delete_menu_submenu menu_id submenu_id w
    = (Returned {| s_id := submenu_id;
                   s_title := submenu_title sc;
                   s_description := submenu_description sc;
                   s_dishes_count := length (dishes_of submenu_id (store w)) |}, w')
    /\ store w' = delete_submenu_row submenu_id (store w).
Proof.
  intros Hmc Hsc. destruct keys as (Hd & Hs & Hm).
  unfold CafeteriaService.delete_menu_submenu, get_session, begin. repositories.
  look_up (menu_found (sessions_opened w) (store w) menu_id mc).
  look_up (submenu_found (sessions_opened w) (store w) submenu_id sc).
  unfold bind at 1. rewrite delete_in_session. cbn [ret fst snd].
  eexists. split.
  - do 2 f_equal. unfold submenu_data.
    cbn [submenu_pk submenu_columns submenu_dishes load_submenu].
    now rewrite length_map.
  - reflexivity.
Qed.

End Mutations.

(** ** One transaction scope around every mutation *)

Create HintDb session.

Section InSession.

Context {A B : Type}.

Lemma in_session_ret (a : A) : in_session (ret a).
Proof. intros w. repeat split. Qed.

Lemma in_session_raise (e : Error) : in_session (raise (A := A) e).
Proof. intros w. repeat split. Qed.

Lemma in_session_bind (m : M A) (f : A -> M B) :
  in_session m -> (forall a, in_session (f a)) -> in_session (bind m f).
Proof.
  intros Hm Hf w. unfold bind.
  destruct (Hm w) as (Hstore & Hopened & Hbegun).
  destruct (m w) as [[a | e] w']; cbn [snd] in *.
  - destruct (Hf a w') as (Hstore' & Hopened' & Hbegun'). repeat split; congruence.
  - repeat split; assumption.
Qed.

Lemma in_session_found (x : option A) (e : Error) : in_session (found x e).
Proof. destruct x; [apply in_session_ret | apply in_session_raise]. Qed.

Lemma in_session_one_or_none (rows : list A) : in_session (one_or_none rows).
Proof. destruct rows as [|a [|a' rows]]; intros w; repeat split. Qed.

End InSession.

Lemma in_session_raise_if (c : bool) (e : Error) : in_session (raise_if c e).
Proof. destruct c; intros w; repeat split. Qed.

Lemma in_session_read_view : in_session read_view.
Proof. intros w. repeat split. Qed.

Lemma in_session_write_view (db : Database) : in_session (write_view db).
Proof. intros w. repeat split. Qed.

Lemma in_session_draw_uuid : in_session draw_uuid.
Proof. intros w. repeat split. Qed.

#[export] Hint Resolve in_session_ret in_session_raise in_session_found
  in_session_one_or_none in_session_raise_if in_session_read_view
  in_session_write_view in_session_draw_uuid : session.

Ltac in_session :=
  repeat first
    [ solve [auto with session]
    | apply in_session_bind; [|intro]
    | progress cbv beta zeta ].

Section RepositoryInSession.

Context {C O : Type} {entity_class : Entity C O}.

Lemma in_session_find (k : UUID) (s : Session) :
  in_session (CRUDRepository.find k (Some s)).
Proof. unfold CRUDRepository.find, CRUDRepository._wrap_session. in_session. Qed.

Lemma in_session_delete (o : O) (s : Session) :
  in_session (CRUDRepository.delete o (Some s)).
Proof. unfold CRUDRepository.delete, CRUDRepository._wrap_session. in_session. Qed.

Lemma in_session_save (entity : Instance C O) (s : Session) :
  in_session (CRUDRepository.save entity (Some s)).
Proof.
  unfold CRUDRepository.save, CRUDRepository._wrap_session, CRUDRepository.flush,
    CRUDRepository.refresh.
  destruct entity; in_session;
    match goal with |- in_session (match ?l with _ => _ end) => destruct l end;
    auto with session.
Qed.

End RepositoryInSession.

#[export] Hint Resolve in_session_find in_session_delete in_session_save : session.

Lemma transaction_atomic {A} (body : Session -> M A) :
  (forall s, in_session (body s)) ->
  atomic (get_session (fun session => begin (body session))).
Proof.
  intros Hbody w. unfold get_session, begin.
  destruct (Hbody (sessions_opened w) (begin_transaction (open_session w)))
    as (Hstore & Hopened & Hbegun).
  destruct (body (sessions_opened w) (begin_transaction (open_session w)))
    as [[a | e] w'];
    cbn [fst snd store sessions_opened transactions_begun rollback commit
         open_session begin_transaction] in *.
  - repeat split; [assumption | assumption | discriminate].
  - repeat split; [assumption | assumption | intros e' _; assumption].
Qed.

(** ** The primary keys are an invariant of the store *)

Create HintDb keys.

Section KeepsKeys.

Context {A B : Type}.

Lemma keeps_keys_ret (a : A) : keeps_keys (ret a).
Proof. intros w Hw. exact Hw. Qed.

Lemma keeps_keys_raise (e : Error) : keeps_keys (raise (A := A) e).
Proof. intros w Hw. exact Hw. Qed.

Lemma keeps_keys_bind (m : M A) (f : A -> M B) :
  keeps_keys m -> (forall a, keeps_keys (f a)) -> keeps_keys (bind m f).
Proof.
  intros Hm Hf w Hw. unfold bind. specialize (Hm w Hw).
  destruct (m w) as [[a | e] w']; cbn [snd] in *; [now apply Hf | exact Hm].
Qed.

Lemma keeps_keys_found (x : option A) (e : Error) : keeps_keys (found x e).
Proof. destruct x; [apply keeps_keys_ret | apply keeps_keys_raise]. Qed.

End KeepsKeys.

#[export] Hint Resolve keeps_keys_ret keeps_keys_raise keeps_keys_found : keys.

Lemma keeps_keys_raise_if (c : bool) (e : Error) : keeps_keys (raise_if c e).
Proof. destruct c; intros w Hw; exact Hw. Qed.

Section RepositoryKeepsKeys.

Context {C O : Type} {entity_class : Entity C O} {mapped : Mapped entity_class}.

Lemma keeps_keys_find (k : UUID) (s : Session) :
  keeps_keys (CRUDRepository.find k (Some s)).
Proof. intros w Hw. now rewrite find_in_session. Qed.

Lemma keeps_keys_delete (o : O) (s : Session) :
  keeps_keys (CRUDRepository.delete o (Some s)).
Proof. intros w Hw. apply delete_row_keys. exact Hw. Qed.

Lemma keeps_keys_save (entity : Instance C O) (s : Session) :
  keeps_keys (CRUDRepository.save entity (Some s)).
Proof.
  intros w Hw.
  unfold CRUDRepository.save, CRUDRepository._wrap_session, CRUDRepository.flush,
    CRUDRepository.refresh, bind, read_view, raise_if, draw_uuid.
  destruct entity as [c | o]; cbn [view].
  - destruct (key_in _ (table (view w))) eqn:Hfresh; cbn [orb snd view raise]; [exact Hw|].
    destruct (foreign_key (view w) c); cbn [negb snd view raise ret write_view];
      [|exact Hw].
    assert (Hkeys : primary_keys
                      (with_table (table (view w)
                                   ++ [(gen_random_uuid w (uuids_drawn w), c)]) (view w))).
    { apply with_table_keys; [|exact Hw].
      apply primary_key_app; [exact Hfresh | now apply table_keys]. }
    destruct (where_id _ _); exact Hkeys.
  - destruct (key_in (id_of o) (table (view w)));
      cbn [negb snd view raise ret write_view]; [|exact Hw].
    assert (Hkeys : primary_keys
                      (with_table (update_row (id_of o) (columns_of o) (table (view w)))
                         (view w))).
    { apply with_table_keys; [|exact Hw].
      apply primary_key_update_row. now apply table_keys. }
    destruct (where_id _ _); exact Hkeys.
Qed.

End RepositoryKeepsKeys.

#[export] Hint Resolve keeps_keys_raise_if keeps_keys_find keeps_keys_delete
  keeps_keys_save DishMapped SubmenuMapped MenuMapped : keys.

Ltac keeps_keys :=
  repeat first
    [ solve [auto with keys]
    | apply keeps_keys_bind; [|intro]
    | progress cbv beta zeta ].

Lemma transaction_keeps_keys {A} (body : Session -> M A) (w : World) :
  (forall s, in_session (body s)) -> (forall s, keeps_keys (body s)) ->
  primary_keys (store w) ->
  primary_keys (store (snd (get_session (fun session => begin (body session)) w))).
Proof.
  intros Hsession Hkeys Hw. unfold get_session, begin.
  destruct (Hsession (sessions_opened w) (begin_transaction (open_session w)))
    as (Hstore & _).
  specialize (Hkeys (sessions_opened w) (begin_transaction (open_session w)) Hw).
  destruct (body (sessions_opened w) (begin_transaction (open_session w)))
    as [[a | e] w'];
    cbn [fst snd store view rollback commit open_session begin_transaction] in *.
  - exact Hkeys.
  - now rewrite Hstore.
Qed.

(** X1. Every create, correct and delete operation hands on a store whose
    tables have their primary keys. *)
Theorem mutations_keep_primary_keys (w : World) :
  primary_keys (store w) ->
  (forall menu_id submenu_id title description price,
      primary_keys (store (after (CafeteriaService.add_dish_to_menu_submenu
                                    menu_id submenu_id title description price) w)))
  /\ (forall menu_id submenu_id dish_id corrected_title corrected_description
             corrected_price,
         primary_keys (store (after (CafeteriaService.correct_dish_in_menu_submenu
                                       menu_id submenu_id dish_id corrected_title
                                       corrected_description corrected_price) w)))
  /\ (forall menu_id submenu_id dish_id,
         primary_keys (store (after (CafeteriaService.remove_dish_from_menu_submenu
                                       menu_id submenu_id dish_id) w)))
  /\ (forall title description,
         primary_keys (store (after (CafeteriaService.create_menu title description) w)))
  /\ (forall menu_id corrected_title corrected_description,
         primary_keys (store (after (CafeteriaService.correct_menu menu_id
                                       corrected_title corrected_description) w)))
  /\ (forall menu_id,
         primary_keys (store (after (CafeteriaService.delete_menu menu_id) w)))
  /\ (forall menu_id title description,
         primary_keys (store (after (CafeteriaService.create_menu_submenu
                                       menu_id title description) w)))
  /\ (forall menu_id submenu_id corrected_title corrected_description,
         primary_keys (store (after (CafeteriaService.correct_menu_submenu
                                       menu_id submenu_id corrected_title
                                       corrected_description) w)))
  /\ (forall menu_id submenu_id,
         primary_keys (store (after (CafeteriaService.delete_menu_submenu
                                       menu_id submenu_id) w))).
Proof.
  intros Hw.
  repeat match goal with |- _ /\ _ => split end; intros; unfold after;
    unfold CafeteriaService.add_dish_to_menu_submenu,
      CafeteriaService.correct_dish_in_menu_submenu,
      CafeteriaService.remove_dish_from_menu_submenu,
      CafeteriaService.create_menu, CafeteriaService.correct_menu,
      CafeteriaService.delete_menu, CafeteriaService.create_menu_submenu,
      CafeteriaService.correct_menu_submenu, CafeteriaService.delete_menu_submenu;
    (apply transaction_keeps_keys;
     [ intros session; repositories; in_session
     | intros session; repositories; keeps_keys
     | exact Hw ]).
Qed.

Lemma mutations_keep_primary_keys_witness :
  primary_keys
    (store (after (CafeteriaService.add_dish_to_menu_submenu 1%N 10%N
                     "Ukha" "Fish soup" 52000%Z) sample_world))
  /\ primary_keys (store (after (CafeteriaService.delete_menu 1%N) sample_world)).
Proof.
  assert (keys : primary_keys (store sample_world)).
  { repeat split; unfold primary_key; cbn [map fst];
      repeat (constructor; [cbn [In]; intuition discriminate|]); constructor. }
  split; apply (mutations_keep_primary_keys sample_world keys).
Defined.

(** ** The rule of correction *)




Lemma where_id_appended {C} (k : UUID) (c : C) (t : Table C) :
  key_in k t = false -> where_id k (t ++ [(k, c)]) = [(k, c)].
Proof.
  intros Hfresh. rewrite where_id_app, (where_id_absent _ _ Hfresh).
  unfold where_id, has_key. cbn [filter fst app]. now rewrite N.eqb_refl.
Qed.

Lemma key_in_without_id {C} (k : UUID) (t : Table C) : key_in k (without_id k t) = false.
Proof.
  unfold key_in, without_id.
  induction t as [|r t IH]; [reflexivity|].
  cbn [filter]. destruct (has_key k r) eqn:E; cbn [negb existsb]; [exact IH|].
  now rewrite E, IH.
Qed.

(** The primary keys of a table given by its rows. *)
Ltac distinct_keys :=
  repeat split; unfold primary_key; cbn [map fst];
  repeat (constructor; [cbn [In]; intuition discriminate|]); constructor.

(** ** The properties of the service *)

Local Open Scope N_scope.



(** C4. Under an existing Menu and a Submenu identifier without a row, the
    list of the Dishes is empty, with no error, while the get of one Dish
    raises SubmenuNotFound. *)
Theorem list_dishes_empty_where_get_dish_fails
    (w : World) (menu_id submenu_id dish_id : UUID) :
  primary_keys (store w) ->
  key_in menu_id (menus (store w)) = true ->
  key_in submenu_id (submenus (store w)) = false ->
  fst (CafeteriaService.get_dishes_in_menu_submenu menu_id submenu_id w) = Returned []
  /\ fst (CafeteriaService.get_dish_in_menu_submenu menu_id submenu_id dish_id w)
     = Raised (SubmenuNotFoundError submenu_id).
Proof.
  intros (Hd & Hs & Hm) Hmenu Hsubmenu.
  destruct (where_id_key_in _ _ Hm Hmenu) as [mc [Hmc _]].
  split.
  - unfold CafeteriaService.get_dishes_in_menu_submenu. repositories.
    look_up (menu_found (sessions_opened w) (store w) menu_id mc).
    unfold bind at 1. rewrite find_unscoped.
    cbn [view store open_session sessions_opened].
    rewrite submenu_missing by assumption. reflexivity.
  - unfold CafeteriaService.get_dish_in_menu_submenu. repositories.
    look_up (menu_found (sessions_opened w) (store w) menu_id mc).
    look_up (submenu_missing (S (sessions_opened w)) (store w) submenu_id).
    reflexivity.
Qed.

Lemma list_dishes_empty_where_get_dish_fails_witness :
  primary_keys (store sample_world)
  /\ fst (CafeteriaService.get_dishes_in_menu_submenu 1 13 sample_world) = Returned []
  /\ fst (CafeteriaService.get_dish_in_menu_submenu 1 13 20 sample_world)
     = Raised (SubmenuNotFoundError 13).
Proof.
  assert (keys : primary_keys (store sample_world)) by distinct_keys.
  split; [exact keys|].
  apply (list_dishes_empty_where_get_dish_fails sample_world 1 13 20 keys); reflexivity.
Defined.

(** C8. [find] of the generic repository returns the one entity whose row has
    the identifier when there is such a row, and returns nothing, without an
    error, when no row has it. *)
Theorem find_unique_or_absent {C O : Type} (entity_class : Entity C O)
    (w : World) (session : option Session) (entity_id : UUID) :
  Mapped entity_class ->
  primary_key (table (rows_read w session)) ->
  (forall c, In (entity_id, c) (table (rows_read w session)) ->
     exists o,
       fst (CRUDRepository.find entity_id session w) = Returned (Some o)
       /\ o = load (session_used w session) (rows_read w session) entity_id c
       /\ id_of o = entity_id
       /\ columns_of o = c
       /\ forall c', In (entity_id, c') (table (rows_read w session)) -> c' = c)
  /\ (key_in entity_id (table (rows_read w session)) = false ->
      fst (CRUDRepository.find entity_id session w) = Returned None).
Proof.
  intros mapped Hpk.
  assert (Hfind : fst (CRUDRepository.find entity_id session w)
                  = Returned (instance_of (session_used w session)
                                (rows_read w session) entity_id)).
  { destruct session as [s|]; cbn [rows_read session_used] in *.
    - rewrite find_in_session. cbn [fst]. now apply query_one_primary_key.
    - rewrite find_unscoped. cbn [fst]. now apply query_one_primary_key. }
  split.
  - intros c Hin. eexists. split; [|split; [reflexivity|]].
    + rewrite Hfind. now rewrite (instance_of_present _ _ _ c Hpk Hin).
    + split; [apply id_of_load|]. split; [apply columns_of_load|].
      intros c' Hin'. exact (In_unique _ _ _ _ Hpk Hin' Hin).
  - intros Habsent. rewrite Hfind. now rewrite (instance_of_absent _ _ _ Habsent).
Qed.

Lemma find_unique_or_absent_witness :
  fst (DishRepository.find 21 None sample_world)
  = Returned (Some {| dish_session := 0%nat;
                      dish_pk := 21;
                      dish_columns :=
                        {| dish_title := "Solyanka"; dish_description := "Sour soup";
                           dish_price := 39900%Z; dish_submenu_id := 10 |} |})
  /\ fst (DishRepository.find 23 None sample_world) = Returned None.
Proof.
  assert (keys : primary_key (table (Entity := DishEntity) (rows_read sample_world None)))
    by distinct_keys.
  split.
  - destruct (proj1 (find_unique_or_absent DishEntity sample_world None 21 DishMapped keys)
                _ (or_intror (or_introl eq_refl))) as [o [Hfind [Ho _]]].
    unfold DishRepository.find. rewrite Hfind, Ho. reflexivity.
  - apply (find_unique_or_absent DishEntity sample_world None 23 DishMapped keys).
    reflexivity.
Defined.



(** C6. Every create, correct and delete operation of the service opens
    exactly one session and begins exactly one transaction on it, inside which
    its checks and its write run; when it raises, whatever the error, the
    committed rows are those of before the call. *)
Theorem mutations_are_atomic :
  (forall menu_id submenu_id title description price,
      atomic (CafeteriaService.add_dish_to_menu_submenu
                menu_id submenu_id title description price))
  /\ (forall menu_id submenu_id dish_id corrected_title corrected_description
             corrected_price,
         atomic (CafeteriaService.correct_dish_in_menu_submenu menu_id submenu_id dish_id
                   corrected_title corrected_description corrected_price))
  /\ (forall menu_id submenu_id dish_id,
         atomic (CafeteriaService.remove_dish_from_menu_submenu menu_id submenu_id dish_id))
  /\ (forall title description, atomic (CafeteriaService.create_menu title description))
  /\ (forall menu_id corrected_title corrected_description,
         atomic (CafeteriaService.correct_menu menu_id corrected_title corrected_description))
  /\ (forall menu_id, atomic (CafeteriaService.delete_menu menu_id))
  /\ (forall menu_id title description,
         atomic (CafeteriaService.create_menu_submenu menu_id title description))
  /\ (forall menu_id submenu_id corrected_title corrected_description,
         atomic (CafeteriaService.correct_menu_submenu menu_id submenu_id
                   corrected_title corrected_description))
  /\ (forall menu_id submenu_id,
         atomic (CafeteriaService.delete_menu_submenu menu_id submenu_id)).
Proof.
  repeat match goal with |- _ /\ _ => split end; intros;
    unfold CafeteriaService.add_dish_to_menu_submenu,
      CafeteriaService.correct_dish_in_menu_submenu,
      CafeteriaService.remove_dish_from_menu_submenu,
      CafeteriaService.create_menu, CafeteriaService.correct_menu,
      CafeteriaService.delete_menu, CafeteriaService.create_menu_submenu,
      CafeteriaService.correct_menu_submenu, CafeteriaService.delete_menu_submenu;
    apply transaction_atomic; intros session; repositories; in_session.
Qed.

(** In [colliding_world] the INSERT of the Dish violates the primary key:
    [IntegrityError] is raised and the committed rows stay as they were. *)
Lemma mutations_are_atomic_witness :
  fst (CafeteriaService.add_dish_to_menu_submenu 1 10 "Ukha" "Fish soup" 52000%Z
         colliding_world)
  = Raised IntegrityError
  /\ sessions_opened
       (snd (CafeteriaService.add_dish_to_menu_submenu 1 10 "Ukha" "Fish soup" 52000%Z
               colliding_world))
     = 1%nat
  /\ transactions_begun
       (snd (CafeteriaService.add_dish_to_menu_submenu 1 10 "Ukha" "Fish soup" 52000%Z
               colliding_world))
     = 1%nat
  /\ store (snd (CafeteriaService.add_dish_to_menu_submenu 1 10 "Ukha" "Fish soup" 52000%Z
                   colliding_world))
     = store colliding_world.
Proof.
  split; [reflexivity|].
  destruct (proj1 mutations_are_atomic 1 10 "Ukha"%string "Fish soup"%string 52000%Z
              colliding_world) as (Hopened & Hbegun & Hstore).
  split; [exact Hopened|]. split; [exact Hbegun|].
  apply (Hstore IntegrityError). reflexivity.
Defined.




(** C10. A successful create of a Submenu returns the description of the
    owning Menu; the description supplied is the one stored in the new row.
    The title, the identifier and the count of dishes returned are those of the
    created Submenu. *)
Theorem created_submenu_reports_menu_description
    (w : World) (menu_id : UUID) (title description : string) (mc : MenuColumns) :
  primary_keys (store w) ->
  In (menu_id, mc) (menus (store w)) ->
  key_in (gen_random_uuid w (uuids_drawn w)) (submenus (store w)) = false ->
  let k := gen_random_uuid w (uuids_drawn w) in
  exists w',
    CafeteriaService.create_menu_submenu menu_id title description w
    = (Returned {| s_id := k;
                   s_title := title;
                   s_description := menu_description mc;
                   s_dishes_count := length (dishes_of k (store w)) |}, w')
    /\ where_id k (submenus (store w'))
       = [(k, {| submenu_title := title;
                 submenu_description := description;
                 submenu_menu_id := menu_id |})].
Proof.
  intros keys Hmc Hfresh k.
  destruct (create_menu_submenu_returns w keys menu_id title description mc Hmc Hfresh)
    as (w' & Hrun & Hstore).
  exists w'. split; [exact Hrun|].
  rewrite Hstore. cbn [submenus]. now apply where_id_appended.
Qed.

Lemma created_submenu_reports_menu_description_witness :
  exists w',
    CafeteriaService.create_menu_submenu 1 "Salads" "Cold salads" sample_world
    = (Returned {| s_id := 100; s_title := "Salads";
                   s_description := "Served at noon"; s_dishes_count := 0 |}, w')
    /\ where_id 100 (submenus (store w'))
       = [(100, {| submenu_title := "Salads"; submenu_description := "Cold salads";
                   submenu_menu_id := 1 |})].
Proof.
  assert (keys : primary_keys (store sample_world)) by distinct_keys.
  apply (created_submenu_reports_menu_description sample_world 1 "Salads" "Cold salads"
           {| menu_title := "Lunch"; menu_description := "Served at noon" |} keys);
    cbn; auto.
Defined.

(** C2 at a failing input.  Menus A (1) and B (2) exist and the Submenu S (3)
    was created under A.  Addressed under B, the get and the correct of S raise
    SubmenuNotIncludedInMenu and leave the store as it was; the delete returns
    S and removes its row. *)
Theorem delete_menu_submenu_ignores_the_menu :
  store containment_world
  = {| dishes := [];
       submenus := [(3, {| submenu_title := "S"; submenu_description := "submenu of A";
                           submenu_menu_id := 1 |})];
       menus := [(1, {| menu_title := "A"; menu_description := "first menu" |});
                 (2, {| menu_title := "B"; menu_description := "second menu" |})] |}
  /\ fst (CafeteriaService.get_menu_submenu 2 3 containment_world)
     = Raised (SubmenuNotIncludedInMenuError 2 3)
  /\ fst (CafeteriaService.correct_menu_submenu 2 3 (Some "T"%string) None
            containment_world)
     = Raised (SubmenuNotIncludedInMenuError 2 3)
  /\ store (after (CafeteriaService.correct_menu_submenu 2 3 (Some "T"%string) None)
              containment_world)
     = store containment_world
  /\ fst (CafeteriaService.delete_menu_submenu 2 3 containment_world)
     = Returned {| s_id := 3; s_title := "S"; s_description := "submenu of A";
                   s_dishes_count := 0 |}
  /\ submenus (store (after (CafeteriaService.delete_menu_submenu 2 3) containment_world))
     = [].
Proof. repeat split; reflexivity. Qed.

(** C3 at a failing input.  The Menu 2 owns the one Submenu 12, and the list of
    the Submenus under the Menu 2 has the three Submenus of the store, those of
    the Menu 1 with it. *)
Theorem get_menu_submenus_lists_every_submenu :
  submenus_of 2 (store sample_world)
  = [(12, {| submenu_title := "Cakes"; submenu_description := "Sweet cakes";
             submenu_menu_id := 2 |})]
  /\ fst (CafeteriaService.get_menu_submenus 2 sample_world)
     = Returned
         [{| s_id := 10; s_title := "Soups"; s_description := "Hot soups";
             s_dishes_count := 2 |};
          {| s_id := 11; s_title := "Drinks"; s_description := "Cold drinks";
             s_dishes_count := 1 |};
          {| s_id := 12; s_title := "Cakes"; s_description := "Sweet cakes";
             s_dishes_count := 0 |}].
Proof. split; reflexivity. Qed.

(** C7 at a failing input.  After Menu M (1), Submenu S (2) under M and two
    Dishes under S, the get of the Menu M reports one submenu and two dishes;
    the get of the Submenu S under M reports nothing: it raises
    SubmenuNotIncludedInMenu. *)
Theorem aggregates_after_two_dishes :
  store aggregate_world
  = {| dishes := [(3, {| dish_title := "D1"; dish_description := "first";
                         dish_price := 100%Z; dish_submenu_id := 2 |});
                  (4, {| dish_title := "D2"; dish_description := "second";
                         dish_price := 250%Z; dish_submenu_id := 2 |})];
       submenus := [(2, {| submenu_title := "S"; submenu_description := "submenu";
                           submenu_menu_id := 1 |})];
       menus := [(1, {| menu_title := "M"; menu_description := "menu" |})] |}
  /\ fst (CafeteriaService.get_menu 1 aggregate_world)
     = Returned {| m_id := 1; m_title := "M"; m_description := "menu";
                   m_dishes_count := 2; m_submenus_count := 1 |}
  /\ fst (CafeteriaService.get_menu_submenu 1 2 aggregate_world)
     = Raised (SubmenuNotIncludedInMenuError 1 2).
Proof. repeat split; reflexivity. Qed.

(** ** Further properties: the answers of the tables *)

Section MoreTables.

Context {C : Type}.

Lemma key_in_app (k : UUID) (t t' : Table C) :
  key_in k (t ++ t') = key_in k t || key_in k t'.
Proof. apply existsb_app. Qed.

Lemma key_in_filter (f : UUID * C -> bool) (k : UUID) (c : C) (t : Table C) :
  In (k, c) t -> f (k, c) = true -> key_in k (filter f t) = true.
Proof.
  intros Hin Hf. apply key_in_spec. exists c. apply filter_In. now split.
Qed.

Lemma key_in_filter_false (f : UUID * C -> bool) (k : UUID) (t : Table C) :
  key_in k t = false -> key_in k (filter f t) = false.
Proof.
  intros Habsent. destruct (key_in k (filter f t)) eqn:E; [|reflexivity].
  apply key_in_spec in E. destruct E as [c Hin]. apply filter_In in Hin.
  rewrite (In_key_in k c t (proj1 Hin)) in Habsent. discriminate.
Qed.

Lemma has_key_both (k k' : UUID) (r : UUID * C) :
  has_key k r = true -> has_key k' r = true -> k' = k.
Proof.
  unfold has_key. intros H H'. apply N.eqb_eq in H, H'. congruence.
Qed.

Lemma where_id_without_id (k k' : UUID) (t : Table C) :
  k' <> k -> where_id k' (without_id k t) = where_id k' t.
Proof.
  intros Hne. unfold where_id, without_id.
  induction t as [|r t IH]; [reflexivity|]. cbn [filter].
  destruct (has_key k r) eqn:E, (has_key k' r) eqn:E'; cbn [negb filter];
    rewrite ?E', ?IH; try reflexivity.
  elim Hne. exact (has_key_both k k' r E E').
Qed.



Lemma query_rows (k : UUID) (c : C) (t : Table C) :
  where_id k t = [(k, c)] -> In (k, c) t.
Proof.
  intros Hrow. assert (Hin : In (k, c) (where_id k t)) by (rewrite Hrow; now left).
  apply filter_In in Hin. exact (proj1 Hin).
Qed.

End MoreTables.

(** ** Further properties: every answer of a lookup and of a save *)

Section Cases.

Context {C O : Type} {entity_class : Entity C O} {mapped : Mapped entity_class}.

Lemma query_one_cases (s : Session) (db : Database) (k : UUID) :
  (exists c, In (k, c) (table db)
             /\ query_one s db k = Returned (Some (load s db k c)))
  \/ query_one s db k = Returned None
  \/ query_one s db k = Raised MultipleResultsFound.
Proof.
  unfold query_one.
  destruct (where_id k (table db)) as [|[k' c] [|r' t]] eqn:Hrows; [tauto | | tauto].
  left. exists c.
  assert (Hin : In (k', c) (where_id k (table db))) by (rewrite Hrows; now left).
  apply filter_In in Hin. destruct Hin as [Hin Hk].
  unfold has_key in Hk. cbn [fst snd] in *. apply N.eqb_eq in Hk. subst k'. tauto.
Qed.

Lemma save_transient_fails (c : C) (s : Session) (w : World) :
  key_in (gen_random_uuid w (uuids_drawn w)) (table (view w))
  || negb (foreign_key (view w) c) = true ->
  CRUDRepository.save (Transient c) (Some s) w = (Raised IntegrityError, drawn w).
Proof.
  intros Hfails.
  unfold CRUDRepository.save, CRUDRepository._wrap_session, CRUDRepository.flush,
    bind, read_view, raise_if, draw_uuid.
  cbn [view]. now rewrite Hfails.
Qed.

Lemma save_transient_cases (c : C) (s : Session) (w : World) :
  let k := gen_random_uuid w (uuids_drawn w) in
  let db := with_table (table (view w) ++ [(k, c)]) (view w) in
  (key_in k (table (view w)) = false
   /\ foreign_key (view w) c = true
   /\ CRUDRepository.save (Transient c) (Some s) w
      = (Returned (load s db k c), flushed db (drawn w)))
  \/ CRUDRepository.save (Transient c) (Some s) w = (Raised IntegrityError, drawn w).
Proof.
  intros k db.
  destruct (key_in k (table (view w))) eqn:Hfresh.
  - right. apply save_transient_fails. fold k. now rewrite Hfresh.
  - destruct (foreign_key (view w) c) eqn:Hfk.
    + left. repeat split. now apply save_transient.
    + right. apply save_transient_fails. fold k. now rewrite Hfresh, Hfk.
Qed.

End Cases.

(** One scoped lookup of a service body, with every answer of the query. *)
Ltac find_cases c Hin :=
  unfold bind at 1; rewrite find_in_session;
  cbn [view store open_session begin_transaction sessions_opened];
  match goal with
  | |- context [@query_one ?C ?O ?E ?s ?db ?k] =>
      let Hq := fresh "Hq" in
      destruct (@query_one_cases C O E s db k) as [(c & Hin & Hq) | [Hq | Hq]];
      rewrite Hq; clear Hq
  end;
  cbn [found]; try unfold bind at 1; cbn [ret raise fst snd].

(** The INSERT of a service body, with both answers of the store. *)
Ltac insert_cases Hfresh Hfk :=
  unfold bind at 1;
  match goal with
  | |- context [@CRUDRepository.save ?C ?O ?E (Transient ?c) (Some ?s) ?w] =>
      let Hs := fresh "Hsave" in
      destruct (@save_transient_cases C O E _ c s w) as [(Hfresh & Hfk & Hs) | Hs];
      rewrite Hs; clear Hs
  end;
  cbn [view store open_session begin_transaction sessions_opened uuids_drawn
       gen_random_uuid] in *.

(** ** Further properties: the foreign keys are an invariant of the store *)

Lemma foreign_keys_insert_menu (k : UUID) (c : MenuColumns) (db : Database) :
  foreign_keys db ->
  foreign_keys {| dishes := dishes db; submenus := submenus db;
                  menus := menus db ++ [(k, c)] |}.
Proof.
  intros [Hs Hd]. split; cbn [dishes submenus menus]; [|exact Hd].
  eapply Forall_impl; [|exact Hs]. intros r Hr. cbn beta in *.
  now rewrite key_in_app, Hr.
Qed.

Lemma foreign_keys_insert_submenu (k : UUID) (c : SubmenuColumns) (db : Database) :
  key_in (submenu_menu_id c) (menus db) = true ->
  foreign_keys db ->
  foreign_keys {| dishes := dishes db; submenus := submenus db ++ [(k, c)];
                  menus := menus db |}.
Proof.
  intros Hfk [Hs Hd]. split; cbn [dishes submenus menus].
  - apply Forall_app. split; [exact Hs|]. now repeat constructor.
  - eapply Forall_impl; [|exact Hd]. intros r Hr. cbn beta in *.
    now rewrite key_in_app, Hr.
Qed.

Lemma foreign_keys_insert_dish (k : UUID) (c : DishColumns) (db : Database) :
  key_in (dish_submenu_id c) (submenus db) = true ->
  foreign_keys db ->
  foreign_keys {| dishes := dishes db ++ [(k, c)]; submenus := submenus db;
                  menus := menus db |}.
Proof.
  intros Hfk [Hs Hd]. split; cbn [dishes submenus menus]; [exact Hs|].
  apply Forall_app. split; [exact Hd|]. now repeat constructor.
Qed.

Lemma Forall_update_row {C} (P : UUID * C -> Prop) (k : UUID) (c : C) (t : Table C) :
  P (k, c) -> Forall P t -> Forall P (update_row k c t).
Proof.
  intros Hnew Hall. unfold update_row. apply Forall_map.
  eapply Forall_impl; [|exact Hall]. intros r Hr. now destruct (has_key k r).
Qed.

Lemma foreign_keys_update_menu (k : UUID) (c : MenuColumns) (db : Database) :
  foreign_keys db ->
  foreign_keys {| dishes := dishes db; submenus := submenus db;
                  menus := update_row k c (menus db) |}.
Proof.
  intros [Hs Hd]. split; cbn [dishes submenus menus]; [|exact Hd].
  eapply Forall_impl; [|exact Hs]. intros r Hr. cbn beta in *.
  now rewrite key_in_update_row.
Qed.

Lemma foreign_keys_update_submenu (k : UUID) (c : SubmenuColumns) (db : Database) :
  key_in (submenu_menu_id c) (menus db) = true ->
  foreign_keys db ->
  foreign_keys {| dishes := dishes db; submenus := update_row k c (submenus db);
                  menus := menus db |}.
Proof.
  intros Hfk [Hs Hd]. split; cbn [dishes submenus menus].
  - now apply Forall_update_row.
  - eapply Forall_impl; [|exact Hd]. intros r Hr. cbn beta in *.
    now rewrite key_in_update_row.
Qed.

Lemma foreign_keys_update_dish (k : UUID) (c : DishColumns) (db : Database) :
  key_in (dish_submenu_id c) (submenus db) = true ->
  foreign_keys db ->
  foreign_keys {| dishes := update_row k c (dishes db); submenus := submenus db;
                  menus := menus db |}.
Proof.
  intros Hfk [Hs Hd]. split; cbn [dishes submenus menus]; [exact Hs|].
  now apply Forall_update_row.
Qed.

Lemma Forall_filter {A} (P : A -> Prop) (f : A -> bool) (l : list A) :
  Forall P l -> Forall P (filter f l).
Proof.
  intros Hall. apply Forall_forall. intros a Ha. apply filter_In in Ha.
  rewrite Forall_forall in Hall. now apply Hall.
Qed.

Lemma foreign_keys_delete_dish (k : UUID) (db : Database) :
  foreign_keys db -> foreign_keys (delete_dish_row k db).
Proof.
  intros [Hs Hd]. split; cbn [dishes submenus menus delete_dish_row]; [exact Hs|].
  now apply Forall_filter.
Qed.

Lemma foreign_keys_delete_submenu (k : UUID) (db : Database) :
  foreign_keys db -> foreign_keys (delete_submenu_row k db).
Proof.
  intros [Hs Hd]. split; cbn [dishes submenus menus delete_submenu_row].
  - now apply Forall_filter.
  - apply Forall_forall. intros [d dc] Hin. apply filter_In in Hin.
    destruct Hin as [Hin Hother]. cbn [snd] in *.
    rewrite Forall_forall in Hd. specialize (Hd _ Hin). cbn [snd] in Hd.
    apply key_in_spec in Hd. destruct Hd as [sc Hsc].
    apply (key_in_filter _ _ sc); [exact Hsc|].
    unfold has_key. cbn [fst]. exact Hother.
Qed.

Lemma foreign_keys_delete_menu (k : UUID) (db : Database) :
  foreign_keys db -> foreign_keys (delete_menu_row k db).
Proof.
  intros [Hs Hd]. split; cbn [dishes submenus menus delete_menu_row].
  - apply Forall_forall. intros [s sc] Hin. apply filter_In in Hin.
    destruct Hin as [Hin Hother]. cbn [snd] in *.
    rewrite Forall_forall in Hs. specialize (Hs _ Hin). cbn [snd] in Hs.
    apply key_in_spec in Hs. destruct Hs as [mc Hmc].
    apply (key_in_filter _ _ mc); [exact Hmc|].
    unfold has_key. cbn [fst]. exact Hother.
  - apply Forall_forall. intros [d dc] Hin. apply filter_In in Hin.
    destruct Hin as [Hin Hother]. cbn [snd] in *.
    rewrite Forall_forall in Hd. specialize (Hd _ Hin). cbn [snd] in Hd.
    apply key_in_spec in Hd. destruct Hd as [sc Hsc].
    apply (key_in_filter _ _ sc); [exact Hsc|]. cbn [snd].
    destruct (N.eqb_spec (submenu_menu_id sc) k) as [Hk | Hk]; [|reflexivity].
    exfalso. apply negb_true_iff in Hother. unfold submenus_of in Hother.
    rewrite (key_in_filter _ _ sc (submenus db) Hsc) in Hother; [discriminate|].
    cbn [snd]. now apply N.eqb_eq.
Qed.

(** The leaf of a service body that raised: the committed rows are those of
    before. *)
Ltac unchanged :=
  solve [ cbn [fst snd store view rollback commit open_session begin_transaction
               flushed drawn write_view draw_uuid];
          assumption ].

(** The leaf of a service body that returned: the committed rows are those
    flushed. *)
Ltac committed :=
  cbn [fst snd store view rollback commit open_session begin_transaction
       flushed drawn write_view draw_uuid ret
       with_table table delete_row id_of columns_of foreign_key load
       DishEntity SubmenuEntity MenuEntity
       load_dish load_submenu load_menu
       dish_pk dish_columns submenu_pk submenu_columns menu_pk menu_columns
       dish_submenu_id submenu_menu_id] in *.

Lemma dish_reference (db : Database) (k : UUID) (c : DishColumns) :
  foreign_keys db -> In (k, c) (dishes db) ->
  key_in (dish_submenu_id c) (submenus db) = true.
Proof.
  intros [_ Hd] Hin. rewrite Forall_forall in Hd. exact (Hd _ Hin).
Qed.

Lemma submenu_reference (db : Database) (k : UUID) (c : SubmenuColumns) :
  foreign_keys db -> In (k, c) (submenus db) ->
  key_in (submenu_menu_id c) (menus db) = true.
Proof.
  intros [Hs _] Hin. rewrite Forall_forall in Hs. exact (Hs _ Hin).
Qed.

(** The UPDATE of a service body, on an instance the session has found. *)
Ltac update_row_of c0 :=
  unfold bind at 1;
  match goal with
  | |- context [@CRUDRepository.save ?C ?O ?E (Persistent ?o) (Some ?s) ?w] =>
      rewrite (@save_persistent C O E _ o c0 s w) by assumption
  end.

Section ForeignKeys.

Variable w : World.

Hypothesis keys : primary_keys (store w).
Hypothesis references : foreign_keys (store w).

Lemma add_dish_keeps_foreign_keys menu_id submenu_id title description price :
  foreign_keys (store (after (CafeteriaService.add_dish_to_menu_submenu
                                menu_id submenu_id title description price) w)).
Proof.
  unfold after, CafeteriaService.add_dish_to_menu_submenu, get_session, begin.
  repositories.
  find_cases mc Hmc; try unchanged.
  find_cases sc Hsc; try unchanged.
  destruct (submenu_in _ _); pass; try unchanged.
  insert_cases Hfresh Hfk; try unchanged.
  committed. now apply foreign_keys_insert_dish.
Qed.

Lemma correct_dish_keeps_foreign_keys menu_id submenu_id dish_id
    corrected_title corrected_description corrected_price :
  foreign_keys (store (after (CafeteriaService.correct_dish_in_menu_submenu
                                menu_id submenu_id dish_id corrected_title
                                corrected_description corrected_price) w)).
Proof.
  destruct keys as (Hd & Hs & Hm).
  unfold after, CafeteriaService.correct_dish_in_menu_submenu, get_session, begin.
  repositories.
  find_cases mc Hmc; try unchanged.
  find_cases sc Hsc; try unchanged.
  destruct (submenu_in _ _); pass; try unchanged.
  find_cases dc Hdc; try unchanged.
  update_row_of dc.
  committed. apply foreign_keys_update_dish; [|assumption].
  exact (dish_reference _ _ _ references Hdc).
Qed.

Lemma remove_dish_keeps_foreign_keys menu_id submenu_id dish_id :
  foreign_keys (store (after (CafeteriaService.remove_dish_from_menu_submenu
                                menu_id submenu_id dish_id) w)).
Proof.
  unfold after, CafeteriaService.remove_dish_from_menu_submenu, get_session, begin.
  repositories.
  find_cases mc Hmc; try unchanged.
  find_cases sc Hsc; try unchanged.
  destruct (submenu_in _ _); pass; try unchanged.
  find_cases dc Hdc; try unchanged.
  unfold bind at 1. rewrite delete_in_session.
  committed. now apply foreign_keys_delete_dish.
Qed.

Lemma create_menu_keeps_foreign_keys title description :
  foreign_keys (store (after (CafeteriaService.create_menu title description) w)).
Proof.
  unfold after, CafeteriaService.create_menu, get_session, begin. repositories.
  insert_cases Hfresh Hfk; try unchanged.
  committed. now apply foreign_keys_insert_menu.
Qed.

Lemma correct_menu_keeps_foreign_keys menu_id corrected_title corrected_description :
  foreign_keys (store (after (CafeteriaService.correct_menu menu_id corrected_title
                                corrected_description) w)).
Proof.
  destruct keys as (Hd & Hs & Hm).
  unfold after, CafeteriaService.correct_menu, get_session, begin. repositories.
  find_cases mc Hmc; try unchanged.
  update_row_of mc.
  committed. now apply foreign_keys_update_menu.
Qed.

Lemma delete_menu_keeps_foreign_keys menu_id :
  foreign_keys (store (after (CafeteriaService.delete_menu menu_id) w)).
Proof.
  unfold after, CafeteriaService.delete_menu, get_session, begin. repositories.
  find_cases mc Hmc; try unchanged.
  unfold bind at 1. rewrite delete_in_session.
  committed. now apply foreign_keys_delete_menu.
Qed.

Lemma create_menu_submenu_keeps_foreign_keys menu_id title description :
  foreign_keys (store (after (CafeteriaService.create_menu_submenu
                                menu_id title description) w)).
Proof.
  unfold after, CafeteriaService.create_menu_submenu, get_session, begin. repositories.
  find_cases mc Hmc; try unchanged.
  insert_cases Hfresh Hfk; try unchanged.
  committed. now apply foreign_keys_insert_submenu.
Qed.

Lemma correct_menu_submenu_keeps_foreign_keys menu_id submenu_id
    corrected_title corrected_description :
  foreign_keys (store (after (CafeteriaService.correct_menu_submenu menu_id submenu_id
                                corrected_title corrected_description) w)).
Proof.
  destruct keys as (Hd & Hs & Hm).
  unfold after, CafeteriaService.correct_menu_submenu, get_session, begin. repositories.
  find_cases mc Hmc; try unchanged.
  find_cases sc Hsc; try unchanged.
  destruct (submenu_in _ _); pass; try unchanged.
  update_row_of sc.
  committed. apply foreign_keys_update_submenu; [|assumption].
  exact (submenu_reference _ _ _ references Hsc).
Qed.

Lemma delete_menu_submenu_keeps_foreign_keys menu_id submenu_id :
  foreign_keys (store (after (CafeteriaService.delete_menu_submenu
                                menu_id submenu_id) w)).
Proof.
  unfold after, CafeteriaService.delete_menu_submenu, get_session, begin. repositories.
  find_cases mc Hmc; try unchanged.
  find_cases sc Hsc; try unchanged.
  unfold bind at 1. rewrite delete_in_session.
  committed. now apply foreign_keys_delete_submenu.
Qed.

End ForeignKeys.

(** ** Further properties: what the other operations return *)

Lemma no_dishes_of_fresh_submenu (db : Database) (k : UUID) :
  foreign_keys db -> key_in k (submenus db) = false -> dishes_of k db = [].
Proof.
  intros [_ Hd] Hfresh. unfold dishes_of.
  induction (dishes db) as [|r t IH]; [reflexivity|].
  inversion Hd as [|? ? Hr Ht]; subst. cbn [filter].
  destruct (N.eqb_spec (dish_submenu_id (snd r)) k) as [Hk | Hk]; [|now apply IH].
  rewrite Hk in Hr. congruence.
Qed.

Lemma no_submenus_of_fresh_menu (db : Database) (k : UUID) :
  foreign_keys db -> key_in k (menus db) = false -> submenus_of k db = [].
Proof.
  intros [Hs _] Hfresh. unfold submenus_of.
  induction (submenus db) as [|r t IH]; [reflexivity|].
  inversion Hs as [|? ? Hr Ht]; subst. cbn [filter].
  destruct (N.eqb_spec (submenu_menu_id (snd r)) k) as [Hk | Hk]; [|now apply IH].
  rewrite Hk in Hr. congruence.
Qed.

Lemma menu_data_load (s : Session) (db : Database) (k : UUID) (c : MenuColumns) :
  menu_data (load_menu s db k c)
  = {| m_id := k;
       m_title := menu_title c;
       m_description := menu_description c;
       m_dishes_count :=
         list_sum (map (fun r => length (dishes_of (fst r) db)) (submenus_of k db));
       m_submenus_count := length (submenus_of k db) |}.
Proof.
  unfold menu_data. cbn [load_menu menu_pk menu_columns menu_submenus].
  rewrite length_map, map_map. do 2 f_equal.
  apply map_ext. intros r. cbn [submenu_dishes load_submenu]. apply length_map.
Qed.

Section MoreReturns.

Variable w : World.

Hypothesis keys : primary_keys (store w).


Lemma get_dishes_rejects (menu_id submenu_id : UUID)
    (mc : MenuColumns) (sc : SubmenuColumns) :
  In (menu_id, mc) (menus (store w)) -> In (submenu_id, sc) (submenus (store w)) ->
  fst (CafeteriaService.get_dishes_in_menu_submenu menu_id submenu_id w)
  = Raised (SubmenuNotIncludedInMenuError menu_id submenu_id).
Proof.
  intros Hmc Hsc. destruct keys as (Hd & Hs & Hm).
  unfold CafeteriaService.get_dishes_in_menu_submenu. repositories.
  look_up (menu_found (sessions_opened w) (store w) menu_id mc).
  unfold bind at 1. rewrite find_unscoped.
  cbn [view store open_session sessions_opened].
  rewrite (submenu_found (S (sessions_opened w)) (store w) submenu_id sc) by assumption.
  rewrite submenu_in_other_session by lia. reflexivity.
Qed.

Lemma create_menu_returns (title description : string) :
  let k := gen_random_uuid w (uuids_drawn w) in
  key_in k (menus (store w)) = false ->
  exists w',
    CafeteriaService.create_menu title description w
    = (Returned
         {| m_id := k;
            m_title := title;
            m_description := description;
            m_dishes_count :=
              list_sum (map (fun s => length (dishes_of (fst s) (store w)))
                            (submenus_of k (store w)));
            m_submenus_count := length (submenus_of k (store w)) |}, w')
    /\ store w' = {| dishes := dishes (store w);
                     submenus := submenus (store w);
                     menus := menus (store w)
                              ++ [(k, {| menu_title := title;
                                         menu_description := description |})] |}
    /\ uuids_drawn w' = S (uuids_drawn w)
    /\ gen_random_uuid w' = gen_random_uuid w.
Proof.
  intros k Hfresh.
  unfold CafeteriaService.create_menu, get_session, begin. repositories.
  unfold bind at 1. rewrite (save_transient (entity_class := MenuEntity)).
  - cbn [fst snd ret load MenuEntity]. rewrite menu_data_load.
    eexists. split; [reflexivity|]. repeat split.
  - exact Hfresh.
  - reflexivity.
Qed.


Lemma delete_menu_returns (menu_id : UUID) (mc : MenuColumns) :
  In (menu_id, mc) (menus (store w)) ->
  exists w',
    CafeteriaService.delete_menu menu_id w
    = (Returned
         {| m_id := menu_id;
            m_title := menu_title mc;
            m_description := menu_description mc;
            m_dishes_count :=
              list_sum (map (fun s => length (dishes_of (fst s) (store w)))
                            (submenus_of menu_id (store w)));
            m_submenus_count := length (submenus_of menu_id (store w)) |}, w')
    /\ store w' = delete_menu_row menu_id (store w).
Proof.
  intros Hmc. destruct keys as (Hd & Hs & Hm).
  unfold CafeteriaService.delete_menu, get_session, begin. repositories.
  look_up (menu_found (sessions_opened w) (store w) menu_id mc).
  unfold bind at 1. rewrite delete_in_session. cbn [ret fst snd].
  rewrite menu_data_load. eexists. split; reflexivity.
Qed.

End MoreReturns.

(** ** Further properties of the service and of the repository *)

(** X3. Under a Menu identifier that has no row, every operation addressed
    under a Menu, the three of C1 apart, raises MenuNotFound, whatever the
    other arguments are. *)
Theorem missing_menu_is_reported_first (w : World) (menu_id : UUID) :
  key_in menu_id (menus (store w)) = false ->
  (forall submenu_id,
      fst (CafeteriaService.get_dishes_in_menu_submenu menu_id submenu_id w)
      = Raised (MenuNotFoundError menu_id))
  /\ (forall submenu_id title description price,
         fst (CafeteriaService.add_dish_to_menu_submenu menu_id submenu_id
                title description price w)
         = Raised (MenuNotFoundError menu_id))
  /\ fst (CafeteriaService.get_menu menu_id w) = Raised (MenuNotFoundError menu_id)
  /\ (forall corrected_title corrected_description,
         fst (CafeteriaService.correct_menu menu_id corrected_title
                corrected_description w)
         = Raised (MenuNotFoundError menu_id))
  /\ fst (CafeteriaService.delete_menu menu_id w) = Raised (MenuNotFoundError menu_id)
  /\ (forall submenu_id,
         fst (CafeteriaService.get_menu_submenu menu_id submenu_id w)
         = Raised (MenuNotFoundError menu_id))
  /\ fst (CafeteriaService.get_menu_submenus menu_id w)
     = Raised (MenuNotFoundError menu_id)
  /\ (forall title description,
         fst (CafeteriaService.create_menu_submenu menu_id title description w)
         = Raised (MenuNotFoundError menu_id))
  /\ (forall submenu_id corrected_title corrected_description,
         fst (CafeteriaService.correct_menu_submenu menu_id submenu_id
                corrected_title corrected_description w)
         = Raised (MenuNotFoundError menu_id))
  /\ (forall submenu_id,
         fst (CafeteriaService.delete_menu_submenu menu_id submenu_id w)
         = Raised (MenuNotFoundError menu_id)).
Proof.
  intros Hmissing.
  repeat match goal with |- _ /\ _ => split end; intros;
    unfold CafeteriaService.get_dishes_in_menu_submenu,
      CafeteriaService.add_dish_to_menu_submenu, CafeteriaService.get_menu,
      CafeteriaService.correct_menu, CafeteriaService.delete_menu,
      CafeteriaService.get_menu_submenu, CafeteriaService.get_menu_submenus,
      CafeteriaService.create_menu_submenu, CafeteriaService.correct_menu_submenu,
      CafeteriaService.delete_menu_submenu, get_session, begin;
    repositories;
    look_up (menu_missing (sessions_opened w) (store w) menu_id);
    reflexivity.
Qed.

Lemma missing_menu_is_reported_first_witness :
  fst (CafeteriaService.get_menu_submenus 3 sample_world) = Raised (MenuNotFoundError 3)
  /\ fst (CafeteriaService.add_dish_to_menu_submenu 3 10 "Ukha" "Fish soup" 52000%Z
            sample_world)
     = Raised (MenuNotFoundError 3).
Proof.
  split; apply (missing_menu_is_reported_first sample_world 3); reflexivity.
Defined.

(** *** Reads *)

Section ReadOnly.

Context {A B : Type}.

Lemma read_only_ret (a : A) : read_only (ret a).
Proof. intros w. repeat split. Qed.

Lemma read_only_raise (e : Error) : read_only (raise (A := A) e).
Proof. intros w. repeat split. Qed.

Lemma read_only_bind (m : M A) (f : A -> M B) :
  read_only m -> (forall a, read_only (f a)) -> read_only (bind m f).
Proof.
  intros Hm Hf w. unfold bind.
  destruct (Hm w) as (Hstore & Hbegun & Hdrawn).
  destruct (m w) as [[a | e] w']; cbn [snd] in *.
  - destruct (Hf a w') as (Hstore' & Hbegun' & Hdrawn'). repeat split; congruence.
  - repeat split; assumption.
Qed.

Lemma read_only_found (x : option A) (e : Error) : read_only (found x e).
Proof. destruct x; [apply read_only_ret | apply read_only_raise]. Qed.

End ReadOnly.

Lemma read_only_raise_if (c : bool) (e : Error) : read_only (raise_if c e).
Proof. destruct c; intros w; repeat split. Qed.

Section RepositoryReadOnly.

Context {C O : Type} {entity_class : Entity C O}.

Lemma read_only_find (k : UUID) : read_only (CRUDRepository.find k None).
Proof. intros w. rewrite find_unscoped. repeat split. Qed.

Lemma read_only_find_all : read_only (CRUDRepository.find_all None).
Proof. intros w. rewrite find_all_unscoped. repeat split. Qed.

End RepositoryReadOnly.

Create HintDb reads.

#[export] Hint Resolve read_only_ret read_only_raise read_only_found read_only_raise_if
  read_only_find read_only_find_all : reads.

Ltac read_only :=
  repeat first
    [ solve [auto with reads]
    | apply read_only_bind; [|intro]
    | progress cbv beta zeta
    | match goal with |- read_only (match ?x with _ => _ end) => destruct x end ].

(** X4. The six read operations commit nothing: whatever they return or
    raise, the committed rows are those of before, no transaction was begun
    and no identifier was drawn. *)
Theorem reads_change_nothing :
  (forall menu_id submenu_id dish_id,
      read_only (CafeteriaService.get_dish_in_menu_submenu menu_id submenu_id dish_id))
  /\ (forall menu_id submenu_id,
         read_only (CafeteriaService.get_dishes_in_menu_submenu menu_id submenu_id))
  /\ (forall menu_id, read_only (CafeteriaService.get_menu menu_id))
  /\ read_only CafeteriaService.get_menus
  /\ (forall menu_id submenu_id,
         read_only (CafeteriaService.get_menu_submenu menu_id submenu_id))
  /\ (forall menu_id, read_only (CafeteriaService.get_menu_submenus menu_id)).
Proof.
  repeat match goal with |- _ /\ _ => split end; intros;
    unfold CafeteriaService.get_dish_in_menu_submenu,
      CafeteriaService.get_dishes_in_menu_submenu, CafeteriaService.get_menu,
      CafeteriaService.get_menus, CafeteriaService.get_menu_submenu,
      CafeteriaService.get_menu_submenus;
    repositories; read_only.
Qed.

(** *** Repository calls without a session *)

Lemma get_session_discards {A} (body : Session -> M A) (w : World) :
  (forall s, in_session (body s)) ->
  store (snd (get_session body w)) = store w
  /\ view (snd (get_session body w)) = store w.
Proof.
  intros Hbody. unfold get_session.
  destruct (Hbody (sessions_opened w) (open_session w)) as (Hstore & _).
  destruct (body (sessions_opened w) (open_session w)) as [r w'].
  cbn [snd store view rollback open_session] in *. now split.
Qed.

(** X5. A [save] or a [delete] of the generic repository that is passed no
    session opens one, writes in it and closes it without a commit: the
    committed rows are those of before, and the next session sees them
    unchanged. *)
Theorem unscoped_writes_are_discarded {C O : Type} (entity_class : Entity C O)
    (w : World) (entity : Instance C O) (o : O) :
  (store (snd (CRUDRepository.save entity None w)) = store w
   /\ view (snd (CRUDRepository.save entity None w)) = store w)
  /\ (store (snd (CRUDRepository.delete o None w)) = store w
      /\ view (snd (CRUDRepository.delete o None w)) = store w).
Proof.
  split.
  - apply (get_session_discards (fun s => CRUDRepository.save entity (Some s))).
    intros s. apply in_session_save.
  - apply (get_session_discards (fun s => CRUDRepository.delete o (Some s))).
    intros s. apply in_session_delete.
Qed.

(** X6. The three reads addressed under a Menu and a Submenu look the two up
    in two sessions; when both rows exist, also when the Submenu is the
    Menu's, they raise SubmenuNotIncludedInMenu. *)
Theorem unscoped_reads_reject_every_submenu
    (w : World) (menu_id submenu_id dish_id : UUID)
    (mc : MenuColumns) (sc : SubmenuColumns) :
  primary_keys (store w) ->
  In (menu_id, mc) (menus (store w)) ->
  In (submenu_id, sc) (submenus (store w)) ->
  fst (CafeteriaService.get_menu_submenu menu_id submenu_id w)
  = Raised (SubmenuNotIncludedInMenuError menu_id submenu_id)
  /\ fst (CafeteriaService.get_dishes_in_menu_submenu menu_id submenu_id w)
     = Raised (SubmenuNotIncludedInMenuError menu_id submenu_id)
  /\ fst (CafeteriaService.get_dish_in_menu_submenu menu_id submenu_id dish_id w)
     = Raised (SubmenuNotIncludedInMenuError menu_id submenu_id).
Proof.
  intros keys Hmc Hsc. split; [|split].
  - exact (get_menu_submenu_rejects w keys menu_id submenu_id mc sc Hmc Hsc).
  - exact (get_dishes_rejects w keys menu_id submenu_id mc sc Hmc Hsc).
  - exact (get_dish_rejects w keys menu_id submenu_id dish_id mc sc Hmc Hsc).
Qed.

Lemma unscoped_reads_reject_every_submenu_witness :
  fst (CafeteriaService.get_menu_submenu 1 10 sample_world)
  = Raised (SubmenuNotIncludedInMenuError 1 10)
  /\ fst (CafeteriaService.get_dishes_in_menu_submenu 1 10 sample_world)
     = Raised (SubmenuNotIncludedInMenuError 1 10)
  /\ fst (CafeteriaService.get_dish_in_menu_submenu 1 10 20 sample_world)
     = Raised (SubmenuNotIncludedInMenuError 1 10).
Proof.
  assert (keys : primary_keys (store sample_world)) by distinct_keys.
  apply (unscoped_reads_reject_every_submenu sample_world 1 10 20
           {| menu_title := "Lunch"; menu_description := "Served at noon" |}
           {| submenu_title := "Soups"; submenu_description := "Hot soups";
              submenu_menu_id := 1 |} keys); cbn; auto.
Defined.



(** *** Creations and the aggregates *)




(** X8. A Menu created under a fresh identifier is returned with no submenus
    and no dishes, and the get of that identifier then returns the same
    mapping. *)
Theorem created_menu_is_found (w : World) (title description : string) :
  primary_keys (store w) ->
  foreign_keys (store w) ->
  key_in (gen_random_uuid w (uuids_drawn w)) (menus (store w)) = false ->
  let data := {| m_id := gen_random_uuid w (uuids_drawn w);
                 m_title := title;
                 m_description := description;
                 m_dishes_count := 0;
                 m_submenus_count := 0 |} in
  fst (CafeteriaService.create_menu title description w) = Returned data
  /\ fst (CafeteriaService.get_menu (gen_random_uuid w (uuids_drawn w))
            (after (CafeteriaService.create_menu title description) w))
     = Returned data.
Proof.
  intros keys references Hfresh data.
  destruct (create_menu_returns w title description Hfresh)
    as (w' & Hrun & Hstore & _).
  rewrite (no_submenus_of_fresh_menu _ _ references Hfresh) in Hrun. cbn in Hrun.
  unfold after. rewrite Hrun. cbn [fst snd]. split; [reflexivity|].
  assert (keys' : primary_keys (store w')).
  { rewrite Hstore. destruct keys as (Hd & Hs & Hm). repeat split; cbn; try assumption.
    now apply primary_key_app. }
  rewrite (get_menu_returns w' keys' _ {| menu_title := title;
                                           menu_description := description |}).
  - rewrite Hstore. unfold submenus_of. cbn [submenus].
    fold (submenus_of (gen_random_uuid w (uuids_drawn w)) (store w)).
    now rewrite (no_submenus_of_fresh_menu _ _ references Hfresh).
  - rewrite Hstore. cbn [menus]. apply in_or_app. right. now left.
Qed.

Lemma created_menu_is_found_witness :
  fst (CafeteriaService.get_menu 100
         (after (CafeteriaService.create_menu "Supper" "Served late") sample_world))
  = Returned {| m_id := 100; m_title := "Supper"; m_description := "Served late";
                m_dishes_count := 0; m_submenus_count := 0 |}.
Proof.
  assert (keys : primary_keys (store sample_world)) by distinct_keys.
  assert (references : foreign_keys (store sample_world))
    by (split; repeat constructor).
  apply (created_menu_is_found sample_world "Supper" "Served late" keys references).
  reflexivity.
Defined.



(** X10. Once a Submenu has been created under a Menu, the get of the Menu
    reports one submenu more and as many dishes as before. *)
Theorem created_submenu_is_counted
    (w : World) (menu_id : UUID) (title description : string) (mc : MenuColumns) :
  primary_keys (store w) ->
  foreign_keys (store w) ->
  In (menu_id, mc) (menus (store w)) ->
  key_in (gen_random_uuid w (uuids_drawn w)) (submenus (store w)) = false ->
  exists dishes_count submenus_count,
    fst (CafeteriaService.get_menu menu_id w)
    = Returned {| m_id := menu_id; m_title := menu_title mc;
                  m_description := menu_description mc;
                  m_dishes_count := dishes_count;
                  m_submenus_count := submenus_count |}
    /\ fst (CafeteriaService.get_menu menu_id
              (after (CafeteriaService.create_menu_submenu menu_id title description) w))
       = Returned {| m_id := menu_id; m_title := menu_title mc;
                     m_description := menu_description mc;
                     m_dishes_count := dishes_count;
                     m_submenus_count := S submenus_count |}.
Proof.
  intros keys references Hmc Hfresh.
  destruct (create_menu_submenu_returns w keys menu_id title description mc Hmc Hfresh)
    as (w' & Hrun & Hstore).
  do 2 eexists. split; [exact (get_menu_returns w keys menu_id mc Hmc)|].
  unfold after. rewrite Hrun. cbn [snd].
  assert (keys' : primary_keys (store w')).
  { rewrite Hstore. destruct keys as (Hd & Hs & Hm). repeat split; cbn; try assumption.
    now apply primary_key_app. }
  rewrite (get_menu_returns w' keys' menu_id mc) by (rewrite Hstore; exact Hmc).
  rewrite Hstore. unfold submenus_of at 1 2. cbn [submenus].
  rewrite filter_app. cbn [filter snd submenu_menu_id]. rewrite N.eqb_refl.
  fold (submenus_of menu_id (store w)).
  rewrite map_app, list_sum_app, length_app. cbn [map length list_sum fst].
  unfold dishes_of at 2. cbn [dishes].
  fold (dishes_of (gen_random_uuid w (uuids_drawn w)) (store w)).
  rewrite (no_dishes_of_fresh_submenu _ _ references Hfresh). cbn [length].
  do 2 f_equal; [|lia].
  rewrite Nat.add_0_r. f_equal.
Qed.

Lemma created_submenu_is_counted_witness :
  exists dishes_count submenus_count,
    fst (CafeteriaService.get_menu 2 sample_world)
    = Returned {| m_id := 2; m_title := "Dessert"; m_description := "Served all day";
                  m_dishes_count := dishes_count;
                  m_submenus_count := submenus_count |}
    /\ fst (CafeteriaService.get_menu 2
              (after (CafeteriaService.create_menu_submenu 2 "Ices" "Cold sweets")
                 sample_world))
       = Returned {| m_id := 2; m_title := "Dessert"; m_description := "Served all day";
                     m_dishes_count := dishes_count;
                     m_submenus_count := S submenus_count |}.
Proof.
  assert (keys : primary_keys (store sample_world)) by distinct_keys.
  assert (references : foreign_keys (store sample_world))
    by (split; repeat constructor).
  apply (created_submenu_is_counted sample_world 2 "Ices" "Cold sweets"
           {| menu_title := "Dessert"; menu_description := "Served all day" |}
           keys references); cbn; auto.
Defined.

(** *** Deletions *)

Lemma filter_filter_kept {A} (f g : A -> bool) (l : list A) :
  (forall a, In a l -> f a = true -> g a = true) ->
  filter f (filter g l) = filter f l.
Proof.
  induction l as [|a l IH]; intros H; [reflexivity|]. cbn [filter].
  assert (IH' : filter f (filter g l) = filter f l)
    by (apply IH; intros b Hb; apply H; now right).
  destruct (f a) eqn:Ef.
  - rewrite (H a (or_introl eq_refl) Ef). cbn [filter]. now rewrite Ef, IH'.
  - destruct (g a); cbn [filter]; now rewrite ?Ef, IH'.
Qed.

Lemma filter_filter_dropped {A} (f g : A -> bool) (l : list A) :
  (forall a, In a l -> f a = true -> g a = false) ->
  filter f (filter g l) = [].
Proof.
  induction l as [|a l IH]; intros H; [reflexivity|]. cbn [filter].
  assert (IH' : filter f (filter g l) = [])
    by (apply IH; intros b Hb; apply H; now right).
  destruct (g a) eqn:Eg; [|exact IH']. cbn [filter].
  destruct (f a) eqn:Ef; [|exact IH'].
  rewrite (H a (or_introl eq_refl) Ef) in Eg. discriminate.
Qed.

Lemma key_in_submenus_of (db : Database) (k m : UUID) (c : SubmenuColumns) :
  primary_key (submenus db) -> In (k, c) (submenus db) ->
  key_in k (submenus_of m db) = N.eqb (submenu_menu_id c) m.
Proof.
  intros Hpk Hin. destruct (N.eqb_spec (submenu_menu_id c) m) as [Hm | Hm].
  - apply (key_in_filter _ _ c); [exact Hin|]. cbn [snd]. now apply N.eqb_eq.
  - destruct (key_in k (submenus_of m db)) eqn:E; [|reflexivity].
    apply key_in_spec in E. destruct E as [c' Hin']. apply filter_In in Hin'.
    destruct Hin' as [Hin' Hm']. cbn [snd] in Hm'. apply N.eqb_eq in Hm'.
    rewrite (In_unique k c c' _ Hpk Hin Hin') in Hm. contradiction.
Qed.

Section Cascade.

Variables (db : Database) (k : UUID).

Hypothesis keys : primary_keys db.

Lemma delete_menu_row_no_submenus : submenus_of k (delete_menu_row k db) = [].
Proof.
  unfold submenus_of. cbn [submenus delete_menu_row].
  apply filter_filter_dropped. intros r _ Hr. now rewrite Hr.
Qed.

Lemma delete_menu_row_other_menu (m : UUID) :
  m <> k ->
  where_id m (menus (delete_menu_row k db)) = where_id m (menus db)
  /\ submenus_of m (delete_menu_row k db) = submenus_of m db.
Proof.
  intros Hm. split.
  - cbn [menus delete_menu_row]. now apply where_id_without_id.
  - unfold submenus_of. cbn [submenus delete_menu_row].
    apply filter_filter_kept. intros r _ Hr. apply N.eqb_eq in Hr.
    apply negb_true_iff. apply N.eqb_neq. congruence.
Qed.

Lemma delete_menu_row_own_submenu (s : UUID) (sc : SubmenuColumns) :
  In (s, sc) (submenus db) -> submenu_menu_id sc = k ->
  key_in s (submenus (delete_menu_row k db)) = false
  /\ dishes_of s (delete_menu_row k db) = [].
Proof.
  intros Hsc Hk. destruct keys as (Hd & Hs & Hm). split.
  - cbn [submenus delete_menu_row].
    destruct (key_in s (filter _ (submenus db))) eqn:E; [|reflexivity].
    apply key_in_spec in E. destruct E as [c' Hin']. apply filter_In in Hin'.
    destruct Hin' as [Hin' Hother]. cbn [snd] in Hother.
    rewrite <- (In_unique s sc c' _ Hs Hsc Hin') in Hother.
    apply N.eqb_eq in Hk. rewrite Hk in Hother. discriminate.
  - unfold dishes_of. cbn [dishes delete_menu_row].
    apply filter_filter_dropped. intros r _ Hr. apply N.eqb_eq in Hr. rewrite Hr.
    rewrite (key_in_submenus_of db s k sc Hs Hsc).
    apply N.eqb_eq in Hk. now rewrite Hk.
Qed.

Lemma delete_menu_row_other_submenu (s : UUID) (sc : SubmenuColumns) :
  In (s, sc) (submenus db) -> submenu_menu_id sc <> k ->
  where_id s (submenus (delete_menu_row k db)) = [(s, sc)]
  /\ dishes_of s (delete_menu_row k db) = dishes_of s db.
Proof.
  intros Hsc Hk. destruct keys as (Hd & Hs & Hm). split.
  - cbn [submenus delete_menu_row]. apply where_id_present.
    + now apply primary_key_filter.
    + apply filter_In. split; [exact Hsc|]. cbn [snd].
      apply negb_true_iff. now apply N.eqb_neq.
  - unfold dishes_of. cbn [dishes delete_menu_row].
    apply filter_filter_kept. intros r _ Hr. apply N.eqb_eq in Hr. rewrite Hr.
    rewrite (key_in_submenus_of db s k sc Hs Hsc).
    apply N.eqb_neq in Hk. now rewrite Hk.
Qed.

Lemma delete_submenu_row_own : 
  key_in k (submenus (delete_submenu_row k db)) = false
  /\ dishes_of k (delete_submenu_row k db) = [].
Proof.
  split.
  - cbn [submenus delete_submenu_row]. apply key_in_without_id.
  - unfold dishes_of. cbn [dishes delete_submenu_row].
    apply filter_filter_dropped. intros r _ Hr. now rewrite Hr.
Qed.

Lemma delete_submenu_row_other (s : UUID) :
  s <> k ->
  where_id s (submenus (delete_submenu_row k db)) = where_id s (submenus db)
  /\ dishes_of s (delete_submenu_row k db) = dishes_of s db.
Proof.
  intros Hs. split.
  - cbn [submenus delete_submenu_row]. now apply where_id_without_id.
  - unfold dishes_of. cbn [dishes delete_submenu_row].
    apply filter_filter_kept. intros r _ Hr. apply N.eqb_eq in Hr.
    apply negb_true_iff. apply N.eqb_neq. congruence.
Qed.

End Cascade.

Lemma get_menu_missing (w : World) (menu_id : UUID) :
  key_in menu_id (menus (store w)) = false ->
  fst (CafeteriaService.get_menu menu_id w) = Raised (MenuNotFoundError menu_id).
Proof.
  intros Hmissing. unfold CafeteriaService.get_menu. repositories.
  look_up (menu_missing (sessions_opened w) (store w) menu_id). reflexivity.
Qed.

(** X11. The delete of an existing Menu returns the Menu with the counts it
    had, and removes its row, the rows of its Submenus and the rows of their
    Dishes; the rows of the other Menus, of their Submenus and of the
    Dishes of those stay as they were.  The get of the Menu then raises
    MenuNotFound. *)
Theorem delete_menu_cascades (w : World) (menu_id : UUID) (mc : MenuColumns) :
  primary_keys (store w) ->
  In (menu_id, mc) (menus (store w)) ->
  let w' := after (CafeteriaService.delete_menu menu_id) w in
  fst (CafeteriaService.delete_menu menu_id w)
  = Returned
      {| m_id := menu_id;
         m_title := menu_title mc;
         m_description := menu_description mc;
         m_dishes_count :=
           list_sum (map (fun s => length (dishes_of (fst s) (store w)))
                         (submenus_of menu_id (store w)));
         m_submenus_count := length (submenus_of menu_id (store w)) |}
  /\ key_in menu_id (menus (store w')) = false
  /\ submenus_of menu_id (store w') = []
  /\ (forall s sc,
         In (s, sc) (submenus (store w)) -> submenu_menu_id sc = menu_id ->
         key_in s (submenus (store w')) = false /\ dishes_of s (store w') = [])
  /\ (forall m,
         m <> menu_id ->
         where_id m (menus (store w')) = where_id m (menus (store w))
         /\ submenus_of m (store w') = submenus_of m (store w))
  /\ (forall s sc,
         In (s, sc) (submenus (store w)) -> submenu_menu_id sc <> menu_id ->
         where_id s (submenus (store w')) = [(s, sc)]
         /\ dishes_of s (store w') = dishes_of s (store w))
  /\ fst (CafeteriaService.get_menu menu_id w') = Raised (MenuNotFoundError menu_id).
Proof.
  intros keys Hmc w'.
  destruct (delete_menu_returns w keys menu_id mc Hmc) as (w1 & Hrun & Hstore).
  assert (Hw' : store w' = delete_menu_row menu_id (store w)).
  { unfold w', after. now rewrite Hrun. }
  assert (Hgone : key_in menu_id (menus (store w')) = false).
  { rewrite Hw'. cbn [menus delete_menu_row]. apply key_in_without_id. }
  rewrite Hrun. cbn [fst]. split; [reflexivity|]. split; [exact Hgone|].
  rewrite Hw'.
  split; [apply delete_menu_row_no_submenus|].
  split; [intros s sc; now apply delete_menu_row_own_submenu|].
  split; [intros m; now apply delete_menu_row_other_menu|].
  split; [intros s sc; now apply delete_menu_row_other_submenu|].
  rewrite <- Hw' in *. now apply get_menu_missing.
Qed.

Lemma delete_menu_cascades_witness :
  store (after (CafeteriaService.delete_menu 1) sample_world)
  = {| dishes := [];
       submenus := [(12, {| submenu_title := "Cakes"; submenu_description := "Sweet cakes";
                            submenu_menu_id := 2 |})];
       menus := [(2, {| menu_title := "Dessert"; menu_description := "Served all day" |})] |}
  /\ fst (CafeteriaService.delete_menu 1 sample_world)
     = Returned {| m_id := 1; m_title := "Lunch"; m_description := "Served at noon";
                   m_dishes_count := 3; m_submenus_count := 2 |}
  /\ fst (CafeteriaService.get_menu 1
            (after (CafeteriaService.delete_menu 1) sample_world))
     = Raised (MenuNotFoundError 1).
Proof.
  assert (keys : primary_keys (store sample_world)) by distinct_keys.
  split; [reflexivity|].
  pose proof (delete_menu_cascades sample_world 1
                {| menu_title := "Lunch"; menu_description := "Served at noon" |}
                keys (or_introl eq_refl)) as H.
  split; [exact (proj1 H) | apply H].
Defined.

(** X12. The delete of an existing Submenu, under any existing Menu, returns
    the Submenu with the count of dishes it had, and removes its row and the
    rows of its Dishes; the other Submenus and their Dishes, and the Menus,
    stay as they were. *)
Theorem delete_menu_submenu_cascades
    (w : World) (menu_id submenu_id : UUID) (mc : MenuColumns) (sc : SubmenuColumns) :
  primary_keys (store w) ->
  In (menu_id, mc) (menus (store w)) ->
  In (submenu_id, sc) (submenus (store w)) ->
  let w' := after (CafeteriaService.delete_menu_submenu menu_id submenu_id) w in
  fst (CafeteriaService.delete_menu_submenu menu_id submenu_id w)
  = Returned {| s_id := submenu_id;
                s_title := submenu_title sc;
                s_description := submenu_description sc;
                s_dishes_count := length (dishes_of submenu_id (store w)) |}
  /\ key_in submenu_id (submenus (store w')) = false
  /\ dishes_of submenu_id (store w') = []
  /\ (forall s,
         s <> submenu_id ->
         where_id s (submenus (store w')) = where_id s (submenus (store w))
         /\ dishes_of s (store w') = dishes_of s (store w))
  /\ menus (store w') = menus (store w).
Proof.
  intros keys Hmc Hsc w'.
  destruct (delete_menu_submenu_returns w keys menu_id submenu_id mc sc Hmc Hsc)
    as (w1 & Hrun & Hstore).
  assert (Hw' : store w' = delete_submenu_row submenu_id (store w)).
  { unfold w', after. now rewrite Hrun. }
  rewrite Hrun, Hw'. cbn [fst]. split; [reflexivity|].
  split; [apply delete_submenu_row_own|].
  split; [apply delete_submenu_row_own|].
  split; [intros s; now apply delete_submenu_row_other | reflexivity].
Qed.

Lemma delete_menu_submenu_cascades_witness :
  store (after (CafeteriaService.delete_menu_submenu 1 10) sample_world)
  = {| dishes := [(22, {| dish_title := "Kvass"; dish_description := "Bread drink";
                          dish_price := 12000%Z; dish_submenu_id := 11 |})];
       submenus := [(11, {| submenu_title := "Drinks";
                            submenu_description := "Cold drinks";
                            submenu_menu_id := 1 |});
                    (12, {| submenu_title := "Cakes";
                            submenu_description := "Sweet cakes";
                            submenu_menu_id := 2 |})];
       menus := menus (store sample_world) |}
  /\ fst (CafeteriaService.delete_menu_submenu 1 10 sample_world)
     = Returned {| s_id := 10; s_title := "Soups"; s_description := "Hot soups";
                   s_dishes_count := 2 |}.
Proof.
  assert (keys : primary_keys (store sample_world)) by distinct_keys.
  split; [reflexivity|].
  apply (delete_menu_submenu_cascades sample_world 1 10
           {| menu_title := "Lunch"; menu_description := "Served at noon" |}
           {| submenu_title := "Soups"; submenu_description := "Hot soups";
              submenu_menu_id := 1 |} keys); cbn; auto.
Defined.

Section Missing.

Variable w : World.

Hypothesis keys : primary_keys (store w).



End Missing.




(** *** Corrections *)








(** *** The add of a Dish and the identifiers of the server *)

Section AddDish.

Variable w : World.

Hypothesis keys : primary_keys (store w).





End AddDish.






(** *** The foreign keys *)

(** X2. Every create, correct and delete operation hands on a store whose
    foreign keys hold: each Submenu row names a Menu row and each Dish row a
    Submenu row, the deletes taking the dependent rows away with the row. *)
Theorem mutations_keep_foreign_keys (w : World) :
  primary_keys (store w) ->
  foreign_keys (store w) ->
  (forall menu_id submenu_id title description price,
      foreign_keys (store (after (CafeteriaService.add_dish_to_menu_submenu
                                    menu_id submenu_id title description price) w)))
  /\ (forall menu_id submenu_id dish_id corrected_title corrected_description
             corrected_price,
         foreign_keys (store (after (CafeteriaService.correct_dish_in_menu_submenu
                                       menu_id submenu_id dish_id corrected_title
                                       corrected_description corrected_price) w)))
  /\ (forall menu_id submenu_id dish_id,
         foreign_keys (store (after (CafeteriaService.remove_dish_from_menu_submenu
                                       menu_id submenu_id dish_id) w)))
  /\ (forall title description,
         foreign_keys (store (after (CafeteriaService.create_menu title description) w)))
  /\ (forall menu_id corrected_title corrected_description,
         foreign_keys (store (after (CafeteriaService.correct_menu menu_id
                                       corrected_title corrected_description) w)))
  /\ (forall menu_id,
         foreign_keys (store (after (CafeteriaService.delete_menu menu_id) w)))
  /\ (forall menu_id title description,
         foreign_keys (store (after (CafeteriaService.create_menu_submenu
                                       menu_id title description) w)))
  /\ (forall menu_id submenu_id corrected_title corrected_description,
         foreign_keys (store (after (CafeteriaService.correct_menu_submenu
                                       menu_id submenu_id corrected_title
                                       corrected_description) w)))
  /\ (forall menu_id submenu_id,
         foreign_keys (store (after (CafeteriaService.delete_menu_submenu
                                       menu_id submenu_id) w))).
Proof.
  intros keys references.
  repeat match goal with |- _ /\ _ => split end; intros.
  - now apply add_dish_keeps_foreign_keys.
  - now apply correct_dish_keeps_foreign_keys.
  - now apply remove_dish_keeps_foreign_keys.
  - now apply create_menu_keeps_foreign_keys.
  - now apply correct_menu_keeps_foreign_keys.
  - now apply delete_menu_keeps_foreign_keys.
  - now apply create_menu_submenu_keeps_foreign_keys.
  - now apply correct_menu_submenu_keeps_foreign_keys.
  - now apply delete_menu_submenu_keeps_foreign_keys.
Qed.

Lemma mutations_keep_foreign_keys_witness :
  foreign_keys (store (after (CafeteriaService.delete_menu_submenu 1 10) sample_world))
  /\ foreign_keys (store (after (CafeteriaService.delete_menu 1) sample_world)).
Proof.
  assert (keys : primary_keys (store sample_world)) by distinct_keys.
  assert (references : foreign_keys (store sample_world))
    by (split; repeat constructor).
  split; apply (mutations_keep_foreign_keys sample_world keys references).
Defined.

(** *** Save, then find *)


